(** * A shallow embedding of the invoice pipeline of mfn-mvp

    The Python sources embedded here are [src/app/core/rag_pipeline.py]
    (class [InvoiceProcessor]) and [src/app/core/graph.py] (class
    [AgentGraph]).  External services (Azure Document Intelligence, Azure AI
    Search, the OpenAI chat model) are oracles held in an environment
    record; the effects of a run are an exception-or-value result and the
    trace of the calls made to those services.

    Floats are modelled by exact rationals ([Q]): the rounding of IEEE
    doubles is not modelled. *)

From Stdlib Require Import String Ascii List NArith ZArith QArith Qpower Qabs Qfield Bool Lia.
Import ListNotations.

Open Scope string_scope.
Open Scope bool_scope.
Open Scope nat_scope.

(** ** Python strings: [str.replace], [str.strip], [str.lower]

    A Python [str] is held as the UTF-8 encoding of its code points (a lone
    surrogate as the three bytes of its code point), so that the literals
    of the code, e.g. ["cómo"], read as they do in the source. *)

Module PyStr.

Definition byte (c : ascii) : N := N_of_ascii c.

Definition is_cont (c : ascii) : bool := (128 <=? byte c)%N && (byte c <? 192)%N.

(** The encodings of the code points of [s], in order (a byte that starts
    no complete sequence stands alone). *)
Fixpoint chars (s : string) : list string :=
  match s with
  | EmptyString => []
  | String c1 s1 =>
      if (byte c1 <? 128)%N then String c1 "" :: chars s1
      else if (194 <=? byte c1)%N && (byte c1 <=? 223)%N then
        match s1 with
        | String c2 s2 =>
            if is_cont c2 then String c1 (String c2 "") :: chars s2
            else String c1 "" :: chars s1
        | EmptyString => String c1 "" :: chars s1
        end
      else if (224 <=? byte c1)%N && (byte c1 <=? 239)%N then
        match s1 with
        | String c2 (String c3 s3) =>
            if is_cont c2 && is_cont c3
            then String c1 (String c2 (String c3 "")) :: chars s3
            else String c1 "" :: chars s1
        | _ => String c1 "" :: chars s1
        end
      else if (240 <=? byte c1)%N && (byte c1 <=? 244)%N then
        match s1 with
        | String c2 (String c3 (String c4 s4)) =>
            if is_cont c2 && is_cont c3 && is_cont c4
            then String c1 (String c2 (String c3 (String c4 ""))) :: chars s4
            else String c1 "" :: chars s1
        | _ => String c1 "" :: chars s1
        end
      else String c1 "" :: chars s1
  end.

(** The code point one of those encodings stands for (U+FFFD for a byte
    standing alone). *)
Definition code_point (ch : string) : N :=
  match ch with
  | String c1 EmptyString => if (byte c1 <? 128)%N then byte c1 else 65533
  | String c1 (String c2 EmptyString) => (byte c1 mod 32) * 64 + byte c2 mod 64
  | String c1 (String c2 (String c3 EmptyString)) =>
      (byte c1 mod 16) * 4096 + (byte c2 mod 64) * 64 + byte c3 mod 64
  | String c1 (String c2 (String c3 (String c4 EmptyString))) =>
      (byte c1 mod 8) * 262144 + (byte c2 mod 64) * 4096 + (byte c3 mod 64) * 64
      + byte c4 mod 64
  | _ => 65533
  end%N.

(** [str.isspace] of one code point ([Py_UNICODE_ISSPACE]): \t \n \v \f \r,
    \x1c-\x1f, the space, U+0085, U+00A0, U+1680, U+2000-U+200A, U+2028,
    U+2029, U+202F, U+205F and U+3000. *)
Definition is_space (cp : N) : bool :=
  (((9 <=? cp) && (cp <=? 13)) || ((28 <=? cp) && (cp <=? 32))
  || (cp =? 133) || (cp =? 160) || (cp =? 5760)
  || ((8192 <=? cp) && (cp <=? 8202))
  || (cp =? 8232) || (cp =? 8233) || (cp =? 8239) || (cp =? 8287) || (cp =? 12288))%N.

Definition is_ws (ch : string) : bool := is_space (code_point ch).

Fixpoint drop_ws (cs : list string) : list string :=
  match cs with
  | [] => []
  | ch :: cs' => if is_ws ch then drop_ws cs' else cs
  end.

Definition join (cs : list string) : string := fold_right append "" cs.

(** [s.strip()]: the leading and the trailing whitespace code points go. *)
Definition strip (s : string) : string :=
  join (rev (drop_ws (rev (drop_ws (chars s))))).

(** [s.replace(c, r)] for an ASCII character [c]: no byte of a longer
    sequence is below 128, so the bytes can be replaced one by one. *)
Fixpoint replace (c : ascii) (r : string) (s : string) : string :=
  match s with
  | EmptyString => EmptyString
  | String a s' =>
      if Ascii.eqb a c then (r ++ replace c r s')%string
      else String a (replace c r s')
  end.

(** Lower case of an ASCII letter. *)
Definition lower_char (c : ascii) : ascii :=
  let n := nat_of_ascii c in
  if (65 <=? n) && (n <=? 90) then ascii_of_nat (n + 32) else c.

(** [s.lower()] on an ASCII string. *)
Fixpoint lower (s : string) : string :=
  match s with
  | EmptyString => EmptyString
  | String c s' => String (lower_char c) (lower s')
  end.

(** Every character of [s] satisfies [p]. *)
Fixpoint all_chars (p : ascii -> bool) (s : string) : bool :=
  match s with
  | EmptyString => true
  | String c s' => p c && all_chars p s'
  end.

End PyStr.

(** ** Python's [float(str)]

    [float] first turns the string into ASCII
    ([_PyUnicode_TransformDecimalAndSpaceToASCII]): an ASCII string is kept
    as it is; otherwise a code point below 127 is kept, a whitespace code
    point becomes a space, a decimal digit of any script becomes its ASCII
    digit, and any other code point becomes ['?'] (which no number
    contains).  It then strips the ASCII whitespace \t \n \v \f \r and the
    space, and parses the grammar
    {v
    floatvalue    ::= [sign] (floatnumber | "inf" | "infinity" | "nan")
    floatnumber   ::= number [exponent]
    number        ::= [digitpart] "." digitpart | digitpart ["."]
    exponent      ::= ("e" | "E") [sign] digitpart
    digitpart     ::= digit (["_"] digit)*
    v}
    with the keywords case-insensitive.  A string outside the grammar
    raises [ValueError] ([None] here).  The value of a number is kept exact,
    as a rational, instead of being rounded to the nearest double; a
    magnitude that rounds past the largest double gives [inf], as
    [float("1e400")] does. *)

Module PyFloat.

Import PyStr.

Inductive pyfloat : Type :=
| PFin (q : Q)
| PInf (neg : bool)
| PNaN.

(** The first code point of each run of ten decimal digits 0-9 of the
    Unicode database (Unicode 14.0, the one of Python 3.11). *)
Definition decimal_starts : list N :=
  [48; 1632; 1776; 1984; 2406; 2534; 2662; 2790; 2918; 3046; 3174; 3302; 3430;
   3558; 3664; 3792; 3872; 4160; 4240; 6112; 6160; 6470; 6608; 6784; 6800;
   6992; 7088; 7232; 7248; 42528; 43216; 43264; 43472; 43504; 43600; 44016;
   65296; 66720; 68912; 69734; 69872; 69942; 70096; 70384; 70736; 70864;
   71248; 71360; 71472; 71904; 72016; 72784; 73040; 73120; 92768; 92864;
   93008; 120782; 120792; 120802; 120812; 120822; 123200; 123632; 125264;
   130032]%N.

(** [Py_UNICODE_TODECIMAL] *)
Definition decimal_value (cp : N) : option N :=
  match find (fun z => (z <=? cp) && (cp <=? z + 9))%N decimal_starts with
  | Some z => Some (cp - z)%N
  | None => None
  end.

Definition transform_char (ch : string) : ascii :=
  let cp := code_point ch in
  if (cp <? 127)%N then ascii_of_N cp
  else if is_space cp then " "
  else match decimal_value cp with
       | Some d => ascii_of_N (48 + d)
       | None => "?"
       end.

(** [_PyUnicode_TransformDecimalAndSpaceToASCII] *)
Definition transform (s : string) : string :=
  if all_chars (fun c => (byte c <? 128)%N) s then s
  else string_of_list_ascii (map transform_char (chars s)).

(** [Py_ISSPACE] *)
Definition c_isspace (c : ascii) : bool :=
  let n := nat_of_ascii c in
  ((9 <=? n) && (n <=? 13)) || (n =? 32).

Fixpoint c_lstrip (s : string) : string :=
  match s with
  | EmptyString => EmptyString
  | String c s' => if c_isspace c then c_lstrip s' else s
  end.

Fixpoint c_rstrip (s : string) : string :=
  match s with
  | EmptyString => EmptyString
  | String c s' =>
      let r := c_rstrip s' in
      match r with
      | EmptyString => if c_isspace c then EmptyString else String c EmptyString
      | _ => String c r
      end
  end.

Definition c_strip (s : string) : string := c_rstrip (c_lstrip s).

Definition is_digit (c : ascii) : bool :=
  let n := nat_of_ascii c in (48 <=? n) && (n <=? 57).

Definition digit_val (c : ascii) : nat := nat_of_ascii c - 48.

(** The digits after the first one of a [digitpart], and the rest. *)
Fixpoint digits_tail (s : string) : list nat * string :=
  match s with
  | EmptyString => ([], EmptyString)
  | String c s' =>
      if is_digit c then
        let '(ds, r) := digits_tail s' in (digit_val c :: ds, r)
      else if Ascii.eqb c "_"%char then
        match s' with
        | String c2 s'' =>
            if is_digit c2 then
              let '(ds, r) := digits_tail s'' in (digit_val c2 :: ds, r)
            else ([], s)
        | EmptyString => ([], s)
        end
      else ([], s)
  end.

Definition digitpart (s : string) : option (list nat * string) :=
  match s with
  | String c s' =>
      if is_digit c then
        let '(ds, r) := digits_tail s' in Some (digit_val c :: ds, r)
      else None
  | EmptyString => None
  end.

Definition parse_sign (s : string) : bool * string :=
  match s with
  | String c s' =>
      if Ascii.eqb c "-"%char then (true, s')
      else if Ascii.eqb c "+"%char then (false, s')
      else (false, s)
  | EmptyString => (false, s)
  end.

(** [number]: integer digits, fraction digits, rest. *)
Definition parse_number (s : string) : option (list nat * list nat * string) :=
  match s with
  | EmptyString => None
  | String c s' =>
      if Ascii.eqb c "."%char then
        match digitpart s' with
        | Some (fp, r) => Some ([], fp, r)
        | None => None
        end
      else
        match digitpart s with
        | Some (ip, r) =>
            match r with
            | String d r' =>
                if Ascii.eqb d "."%char then
                  match digitpart r' with
                  | Some (fp, r'') => Some (ip, fp, r'')
                  | None => Some (ip, [], r')
                  end
                else Some (ip, [], r)
            | EmptyString => Some (ip, [], r)
            end
        | None => None
        end
  end.

Definition digits_Z (ds : list nat) : Z :=
  fold_left (fun acc d => 10 * acc + Z.of_nat d)%Z ds 0%Z.

Definition parse_exponent (s : string) : option (Z * string) :=
  match s with
  | String c s' =>
      if Ascii.eqb c "e"%char || Ascii.eqb c "E"%char then
        let '(neg, s'') := parse_sign s' in
        match digitpart s'' with
        | Some (ds, r) => Some (if neg then (- digits_Z ds)%Z else digits_Z ds, r)
        | None => None
        end
      else None
  | EmptyString => None
  end.

(** The exponent part must run to the end of the string. *)
Definition exponent_to_end (r : string) : option Z :=
  match r with
  | EmptyString => Some 0%Z
  | _ =>
      match parse_exponent r with
      | Some (e, EmptyString) => Some e
      | _ => None
      end
  end.

(** 2^1024 - 2^970, halfway between the largest double (2^1024 - 2^971)
    and 2^1024: a decimal value of this magnitude or more rounds to
    infinity. *)
Definition overflow_threshold : Q := inject_Z (2 ^ 1024 - 2 ^ 970).

(** The number of magnitude [q >= 0] and sign [neg]. *)
Definition to_float (neg : bool) (q : Q) : pyfloat :=
  if Qle_bool overflow_threshold q then PInf neg
  else PFin (if neg then Qopp q else q).

(** [float(s)] ([None] is a raised [ValueError]). *)
Definition py_float (s : string) : option pyfloat :=
  let t := c_strip (transform s) in
  let '(neg, u) := parse_sign t in
  let lu := lower u in
  if String.eqb lu "inf" || String.eqb lu "infinity" then Some (PInf neg)
  else if String.eqb lu "nan" then Some PNaN
  else
    match parse_number u with
    | Some (ip, fp, r) =>
        match exponent_to_end r with
        | Some e =>
            let q := (inject_Z (digits_Z (ip ++ fp))
                      * Qpower 10 (e - Z.of_nat (length fp)))%Q in
            Some (to_float neg q)
        | None => None
        end
    | None => None
    end.

(** The float value is the rational [q] (up to [Qeq]). *)
Definition feq (x : pyfloat) (q : Q) : Prop :=
  match x with
  | PFin r => (r == q)%Q
  | _ => False
  end.

End PyFloat.

(** ** [clean_currency] ([_extract_invoice_fields], rag_pipeline.py:148-152)
    {v
    def clean_currency(value: Any) -> float:
        if value is None: return 0.0
        try:
            return float(str(value).replace("$", "").strip()
                                    .replace(".", "").replace(",", "."))
        except (ValueError, TypeError): return 0.0
    v}
    The value is a field's [content], a string or [None]. *)

Module Currency.

Import PyStr PyFloat.

Definition rewrite_amount (s : string) : string :=
  replace ","%char "." (replace "."%char "" (strip (replace "$"%char "" s))).

Definition clean_currency (value : option string) : pyfloat :=
  match value with
  | None => PFin 0
  | Some s =>
      match py_float (rewrite_amount s) with
      | Some f => f
      | None => PFin 0
      end
  end.

End Currency.

(** ** The documented locale pattern (the claims' side)

    An amount written as an optional [$], a first group of digits, further
    groups each introduced by the thousands separator ['.'], and an optional
    decimal part introduced by [','].  The documented pattern has groups of
    three digits; the statements below hold for groups of any length. *)

Module Locale.

Inductive digit : Type := D0 | D1 | D2 | D3 | D4 | D5 | D6 | D7 | D8 | D9.

Definition digit_char (d : digit) : ascii :=
  match d with
  | D0 => "0" | D1 => "1" | D2 => "2" | D3 => "3" | D4 => "4"
  | D5 => "5" | D6 => "6" | D7 => "7" | D8 => "8" | D9 => "9"
  end.

Definition digit_nat (d : digit) : nat :=
  match d with
  | D0 => 0 | D1 => 1 | D2 => 2 | D3 => 3 | D4 => 4
  | D5 => 5 | D6 => 6 | D7 => 7 | D8 => 8 | D9 => 9
  end.

Fixpoint digits_string (ds : list digit) : string :=
  match ds with
  | [] => EmptyString
  | d :: ds' => String (digit_char d) (digits_string ds')
  end.

(** The integer a digit string denotes. *)
Definition digits_value (ds : list digit) : Z :=
  fold_left (fun acc d => acc * 10 + Z.of_nat (digit_nat d))%Z ds 0%Z.

Fixpoint groups_string (gs : list (list digit)) : string :=
  match gs with
  | [] => EmptyString
  | g :: gs' => "." ++ digits_string g ++ groups_string gs'
  end.

Record amount : Type := mk_amount {
  symbol : bool;
  first_digit : digit;
  lead : list digit;
  groups : list (list digit);
  frac : option (list digit)
}.

Definition render (a : amount) : string :=
  (if symbol a then "$" else "")
  ++ digits_string (first_digit a :: lead a)
  ++ groups_string (groups a)
  ++ match frac a with
     | Some f => "," ++ digits_string f
     | None => ""
     end.

(** The number the amount denotes: integer part, plus the decimals. *)
Definition denote (a : amount) : Q :=
  (inject_Z (digits_value (first_digit a :: lead a ++ concat (groups a)))
   + match frac a with
     | Some f => inject_Z (digits_value f) / inject_Z (10 ^ Z.of_nat (length f))
     | None => 0
     end)%Q.

(** An amount written with ['.'] as the decimal separator and no [','],
    e.g. ["1234.56"]. *)
Definition dot_decimal (sym : bool) (d : digit) (ip fp : list digit) : string :=
  (if sym then "$" else "") ++ digits_string (d :: ip) ++ "." ++ digits_string fp.

End Locale.

(** ** Python values, exceptions, and the effects of a run *)

Module Py.

Import PyFloat.

(** An exception: its class and [str(e)]. *)
Inductive exn_class : Type := HttpResponseError | ValueError | OtherError.

Record exn : Type := mk_exn { exn_kind : exn_class; exn_msg : string }.

(** The values held in the dicts the code builds and returns. *)
#[warnings="-register-all"]
Inductive pyval : Type :=
| VNone
| VBool (b : bool)
| VStr (s : string)
| VFloat (f : pyfloat)
| VDict (d : list (string * pyval)).

Definition dict : Type := list (string * pyval).

(** [d.get(k)] *)
Fixpoint dict_get (d : dict) (k : string) : option pyval :=
  match d with
  | [] => None
  | (k', v) :: d' => if String.eqb k k' then Some v else dict_get d' k
  end.

(** [d.get(k, default)] *)
Definition dict_get_default (d : dict) (k : string) (default : pyval) : pyval :=
  match dict_get d k with Some v => v | None => default end.

(** How many entries of [d] have the key [k]. *)
Definition key_count (d : dict) (k : string) : nat :=
  length (filter (fun kv => String.eqb (fst kv) k) d).

End Py.

Module Effects.

Import Py.

(** What the chat model is asked: the router, the filter generator, and
    the answer generator of [graph.py]. *)
Inductive prompt : Type :=
| RouterPrompt (question : string)
| FilterPrompt (question : string)
| AnswerPrompt (question : string) (results : list dict).

(** A call to an external service. *)
Inductive event : Type :=
| EvSearch (filter : string)
| EvAnalyze (model_id : string)
| EvUpload (docs : list dict)
| EvLLM (p : prompt).

(** A run: raises an exception or returns, and extends the call trace. *)
Definition M (A : Type) : Type := list event -> (exn + A) * list event.

Definition ret {A} (x : A) : M A := fun tr => (inr x, tr).

Definition bind {A B} (m : M A) (k : A -> M B) : M B :=
  fun tr => match m tr with
            | (inl e, tr') => (inl e, tr')
            | (inr x, tr') => k x tr'
            end.

Definition raise {A} (e : exn) : M A := fun tr => (inl e, tr).

Definition emit (ev : event) : M unit := fun tr => (inr tt, (tr ++ [ev])%list).

(** [try: m except: h(e)] *)
Definition try_catch {A} (m : M A) (h : exn -> M A) : M A :=
  fun tr => match m tr with
            | (inl e, tr') => h e tr'
            | ok => ok
            end.

End Effects.

Notation "x <- m ;; k" := (Effects.bind m (fun x => k))
  (at level 61, m at next level, right associativity).
Notation "m ;;; k" := (Effects.bind m (fun _ => k))
  (at level 61, right associativity).

(** ** The ingestion pipeline ([InvoiceProcessor], rag_pipeline.py) *)

Module Ingest.

Import PyStr PyFloat Currency Py Effects.

(** One document found by a Document Intelligence model. *)
Record analyzed_document : Type := mk_doc {
  doc_type : string;
  confidence : Q;
  fields : list (string * option string)   (* field name, its [content] *)
}.

(** [poller.result()]: [None] or the documents of the [AnalyzeResult]. *)
Inductive analyze_outcome : Type :=
| AnalyzeOk (result : option (list analyzed_document))
| AnalyzeRaises (e : exn).

(** [search_client.search(...)]: [get_count()] and the results. *)
Inductive search_outcome : Type :=
| SearchOk (count : nat) (results : list dict)
| SearchRaises (e : exn).

Record indexing_result : Type := mk_indexing_result {
  succeeded : bool;
  error_message : option string
}.

(** [search_client.upload_documents(...)] *)
Inductive upload_outcome : Type :=
| UploadOk (results : list indexing_result)
| UploadRaises (e : exn).

(** The services and library functions the processor uses. *)
Record env : Type := mk_env {
  read_file : string -> exn + list Byte.byte;       (* open(path, 'rb').read() *)
  sha256_hexdigest : list Byte.byte -> string;
  search : string -> search_outcome;                (* filter -> outcome *)
  analyze : string -> list Byte.byte -> analyze_outcome;
  upload : list dict -> upload_outcome;
  uuid4_hex : string;
  now_isoformat : string;
  json_dumps : dict -> string
}.

Definition MODELO_EMITIDAS : string := "opendoors-emitidas-custom".
Definition MODELO_RECIBIDAS : string := "opendoors-recibidas-custom".

Definition confidence_threshold : Q := 95 # 100.

Definition read_call (E : env) (path : string) : M (list Byte.byte) :=
  match read_file E path with
  | inl e => raise e
  | inr b => ret b
  end.

Definition search_call (E : env) (filter : string) : M (nat * list dict) :=
  emit (EvSearch filter) ;;;
  match search E filter with
  | SearchOk n rs => ret (n, rs)
  | SearchRaises e => raise e
  end.

Definition analyze_call (E : env) (m : string) (b : list Byte.byte)
  : M (option (list analyzed_document)) :=
  emit (EvAnalyze m) ;;;
  match analyze E m b with
  | AnalyzeOk r => ret r
  | AnalyzeRaises e => raise e
  end.

Definition upload_call (E : env) (docs : list dict) : M (list indexing_result) :=
  emit (EvUpload docs) ;;;
  match upload E docs with
  | UploadOk rs => ret rs
  | UploadRaises e => raise e
  end.

Definition dup_filter (file_hash : string) : string :=
  "file_hash eq '" ++ file_hash ++ "'".

(** [_is_duplicate] *)
Definition is_duplicate (E : env) (file_hash : string) : M bool :=
  try_catch
    (r <- search_call E (dup_filter file_hash) ;;
     ret (0 <? fst r))
    (fun _ => ret true).

(** [_analyze_with_model]: the result is returned as its document list. *)
Definition analyze_with_model (E : env) (model_id : string) (b : list Byte.byte)
  : M (option (list analyzed_document)) :=
  try_catch
    (result <- analyze_call E model_id b ;;
     match result with
     | Some ((document :: _) as documents) =>
         let expected_doc_type := model_id in
         if String.eqb (doc_type document) expected_doc_type
            && negb (Qle_bool (confidence document) confidence_threshold)
         then ret (Some documents)
         else ret None
     | _ => ret None
     end)
    (fun e => match exn_kind e with
              | HttpResponseError => ret None
              | _ => raise e
              end).

Definition get_field_value (fields : list (string * option string)) (name : string)
  : option string :=
  match find (fun kv => String.eqb (fst kv) name) fields with
  | Some (_, content) => content
  | None => None
  end.

(** [x or "N/A"] on a text field *)
Definition text_or_na (v : option string) : string :=
  match v with
  | Some s => if String.eqb s "" then "N/A" else s
  | None => "N/A"
  end.

(** [_extract_invoice_fields] *)
Definition extract_invoice_fields (documents : list analyzed_document) : dict :=
  match documents with
  | [] => []
  | document :: _ =>
      let fs := fields document in
      [("VendorName", VStr (text_or_na (get_field_value fs "VendorName")));
       ("InvoiceDate", VStr (text_or_na (get_field_value fs "InvoiceDate")));
       ("InvoiceTotal", VFloat (clean_currency (get_field_value fs "InvoiceTotal")));
       ("TotalTax", VFloat (clean_currency (get_field_value fs "TotalTax")))]
  end.

(** [_create_structured_document] *)
Definition create_structured_document (E : env) (invoice_data : dict)
  (file_path invoice_type partner_name file_hash : string) : dict :=
  [("id", VStr ("invoice_" ++ uuid4_hex E));
   ("content", VStr (json_dumps E invoice_data));
   ("VendorName", dict_get_default invoice_data "VendorName" (VStr "N/A"));
   ("InvoiceDate", dict_get_default invoice_data "InvoiceDate" (VStr "N/A"));
   ("InvoiceTotal", dict_get_default invoice_data "InvoiceTotal" (VFloat (PFin 0)));
   ("TotalTax", dict_get_default invoice_data "TotalTax" (VFloat (PFin 0)));
   ("source_file", VStr file_path);
   ("document_type", VStr "invoice");
   ("processed_at", VStr (now_isoformat E));
   ("InvoiceType", VStr invoice_type);
   ("PartnerName", VStr partner_name);
   ("file_hash", VStr file_hash)].

Definition duplicate_result : dict :=
  [("success", VBool false); ("error", VStr "duplicate");
   ("message", VStr "Esta factura ya fue cargada anteriormente.")].

Definition no_model_msg : string :=
  "No se pudo analizar la factura con ninguno de los modelos disponibles.".

(** The classification step (lines 104-120): the accepted result and
    [invoice_type]. *)
Definition classify (E : env) (document_bytes : list Byte.byte)
  : M (option (list analyzed_document) * option string) :=
  r1 <- analyze_with_model E MODELO_EMITIDAS document_bytes ;;
  match r1 with
  | Some r => ret (Some r, Some "ingreso")
  | None =>
      r2 <- analyze_with_model E MODELO_RECIBIDAS document_bytes ;;
      match r2 with
      | Some r => ret (Some r, Some "egreso")
      | None => ret (None, None)
      end
  end.

(** The body of the [try] of [process_and_upload_invoice]. *)
Definition process_body (E : env) (file_path partner_name : string) : M dict :=
  document_bytes <- read_call E file_path ;;
  let file_hash := sha256_hexdigest E document_bytes in
  dup <- is_duplicate E file_hash ;;
  if dup then ret duplicate_result
  else
    c <- classify E document_bytes ;;
    match c with
    | (Some analysis_result, Some invoice_type) =>
        let invoice_data := extract_invoice_fields analysis_result in
        let structured_document :=
          create_structured_document E invoice_data file_path invoice_type
                                     partner_name file_hash in
        upload_result <- upload_call E [structured_document] ;;
        let upload_success :=
          match upload_result with
          | r :: _ => succeeded r
          | [] => false
          end in
        ret [("success", VBool upload_success);
             ("invoice_data", VDict invoice_data);
             ("invoice_type", VStr invoice_type)]
    | _ => raise (mk_exn ValueError no_model_msg)
    end.

(** [process_and_upload_invoice] *)
Definition process_and_upload_invoice (E : env) (file_path partner_name : string)
  : M dict :=
  try_catch (process_body E file_path partner_name)
            (fun e => ret [("success", VBool false); ("error", VStr (exn_msg e))]).

(** [query_invoices] *)
Definition query_invoices (E : env) (filter_query : string) : M (list dict) :=
  try_catch
    (r <- search_call E filter_query ;; ret (snd r))
    (fun _ => ret []).

End Ingest.

(** ** The question-answering graph ([AgentGraph], graph.py) *)

Module Agent.

Import PyStr Py Effects Ingest.

(** What [json.loads] returns. *)
#[warnings="-register-all"]
Inductive json : Type :=
| JNull
| JBool (b : bool)
| JNum (q : Q)
| JStr (s : string)
| JArr (l : list json)
| JObj (kvs : list (string * json)).

(** [AgentState]; the float totals are rationals. *)
Record agent_state : Type := mk_state {
  question : string;
  task_type : option string;
  filter_query : option string;
  search_results : list dict;
  income_total : Q;
  expense_total : Q;
  final_answer : option string
}.

Record agent_env : Type := mk_agent_env {
  llm : prompt -> exn + string;          (* (prompt | self.llm).ainvoke(...).content *)
  index : env;                           (* the services of [invoice_processor] *)
  json_loads : string -> option json     (* [None]: JSONDecodeError *)
}.

Definition llm_call (A : agent_env) (p : prompt) : M string :=
  emit (EvLLM p) ;;;
  match llm A p with
  | inl e => raise e
  | inr content => ret content
  end.

Definition set_task_type (st : agent_state) (t : string) : agent_state :=
  mk_state (question st) (Some t) (filter_query st) (search_results st)
           (income_total st) (expense_total st) (final_answer st).

Definition set_filter_query (st : agent_state) (f : string) : agent_state :=
  mk_state (question st) (task_type st) (Some f) (search_results st)
           (income_total st) (expense_total st) (final_answer st).

Definition set_search_results (st : agent_state) (rs : list dict) : agent_state :=
  mk_state (question st) (task_type st) (filter_query st) rs
           (income_total st) (expense_total st) (final_answer st).

Definition set_income_total (st : agent_state) (x : Q) : agent_state :=
  mk_state (question st) (task_type st) (filter_query st) (search_results st)
           x (expense_total st) (final_answer st).

Definition set_expense_total (st : agent_state) (x : Q) : agent_state :=
  mk_state (question st) (task_type st) (filter_query st) (search_results st)
           (income_total st) x (final_answer st).

Definition set_final_answer (st : agent_state) (a : string) : agent_state :=
  mk_state (question st) (task_type st) (filter_query st) (search_results st)
           (income_total st) (expense_total st) (Some a).

Fixpoint json_get (kvs : list (string * json)) (k : string) : option json :=
  match kvs with
  | [] => None
  | (k', v) :: kvs' => if String.eqb k k' then Some v else json_get kvs' k
  end.

(** [total += v]; [None] is the [TypeError] of a non-number. *)
Definition add_total (total : Q) (v : json) : option Q :=
  match v with
  | JNum q => Some (total + q)%Q
  | JBool b => Some (total + if b then 1 else 0)%Q
  | _ => None
  end.

(** The loop of [_sum_totals]: [JSONDecodeError] and [TypeError] skip a
    result; the [AttributeError] of [.get] on a non-object JSON value is
    not caught. *)
Fixpoint sum_totals_from (A : agent_env) (total : Q) (rs : list dict) : M Q :=
  match rs with
  | [] => ret total
  | result :: rs' =>
      match dict_get_default result "content" (VStr "{}") with
      | VStr s =>
          match json_loads A s with
          | None => sum_totals_from A total rs'
          | Some (JObj kvs) =>
              let v := match json_get kvs "InvoiceTotal" with
                       | Some v => v
                       | None => JNum 0
                       end in
              match add_total total v with
              | Some t => sum_totals_from A t rs'
              | None => sum_totals_from A total rs'
              end
          | Some _ => raise (mk_exn OtherError "object has no attribute 'get'")
          end
      | _ => sum_totals_from A total rs'
      end
  end.

(** [_sum_totals] *)
Definition sum_totals (A : agent_env) (rs : list dict) : M Q :=
  sum_totals_from A 0 rs.

(** [route_question_node] *)
Definition route_question_node (A : agent_env) (st : agent_state) : M string :=
  response <- llm_call A (RouterPrompt (question st)) ;;
  ret (strip response).

(** [generate_filter_node] *)
Definition generate_filter_node (A : agent_env) (st : agent_state) : M string :=
  response <- llm_call A (FilterPrompt (question st)) ;;
  ret (strip response).

(** [execute_search_node] *)
Definition execute_search_node (A : agent_env) (st : agent_state) : M (list dict) :=
  match filter_query st with
  | Some f =>
      if negb (String.eqb f "") && negb (String.eqb f "NO_FILTER")
      then query_invoices (index A) f
      else ret []
  | None => ret []
  end.

(** [search_income_node] *)
Definition search_income_node (A : agent_env) : M Q :=
  search_results <- query_invoices (index A) "InvoiceType eq 'ingreso'" ;;
  sum_totals A search_results.

(** [search_expense_node] *)
Definition search_expense_node (A : agent_env) : M Q :=
  search_results <- query_invoices (index A) "InvoiceType eq 'egreso'" ;;
  sum_totals A search_results.

(** Python's [format(x, ",.2f")] on the exact value of [x]: rounding half
    to even at two decimals, [,] between groups of three digits. *)
Definition round_half_even (p : Z) (q : positive) : Z :=
  let fl := (p / Zpos q)%Z in
  let r := (p mod Zpos q)%Z in
  if (2 * r <? Zpos q)%Z then fl
  else if (Zpos q <? 2 * r)%Z then (fl + 1)%Z
  else if Z.even fl then fl else (fl + 1)%Z.

Definition digit_ascii (n : Z) : ascii := ascii_of_nat (48 + Z.to_nat n).

(** Decimal digits of [n >= 0], least significant first. *)
Fixpoint digits_rev (fuel : nat) (n : Z) : list ascii :=
  match fuel with
  | O => []
  | S f =>
      if (n <? 10)%Z then [digit_ascii n]
      else digit_ascii (n mod 10) :: digits_rev f (n / 10)
  end.

Definition decimal_digits_rev (n : Z) : list ascii :=
  digits_rev (S (Z.to_nat (Z.log2 n))) n.

Fixpoint group_thousands (ds : list ascii) (i : nat) (acc : string) : string :=
  match ds with
  | [] => acc
  | d :: ds' =>
      group_thousands ds' (S i)
        (String d (if (0 <? i) && Nat.eqb (i mod 3) 0 then String "," acc else acc))
  end.

Definition format_comma_2f (x : Q) : string :=
  let neg := negb (Qle_bool 0 x) in
  let a := Qabs x in
  let n := round_half_even (Qnum a * 100) (Qden a) in
  let c := (n mod 100)%Z in
  (if neg then "-" else "")
  ++ group_thousands (decimal_digits_rev (n / 100)) 0 ""
  ++ String "." (String (digit_ascii (c / 10)) (String (digit_ascii (c mod 10)) "")).

Definition nl : string := String "010" "".

Definition balance_answer (income expense : Q) : string :=
  let balance := (income - expense)%Q in
  "He calculado el balance general basado en todas las facturas:" ++ nl
  ++ "- Total de Ingresos: $" ++ format_comma_2f income ++ nl
  ++ "- Total de Egresos: $" ++ format_comma_2f expense ++ nl
  ++ "-----------------------------------" ++ nl
  ++ "**Balance General: $" ++ format_comma_2f balance ++ "**".

Definition no_info_answer : string :=
  "No encontré información relevante para tu pregunta. Intenta ser más específico.".

Definition unsupported_answer : string :=
  "No estoy seguro de cómo procesar esa pregunta. Por favor, intenta preguntarme sobre gastos, ingresos o un balance general.".

(** [task_type in ["calculo_balance", "resumen_general"]] *)
Definition is_balance_task (t : string) : bool :=
  String.eqb t "calculo_balance" || String.eqb t "resumen_general".

(** [generate_answer_node] *)
Definition generate_answer_node (A : agent_env) (st : agent_state) : M string :=
  let balance_task := match task_type st with
                      | Some t => is_balance_task t
                      | None => false
                      end in
  if balance_task then ret (balance_answer (income_total st) (expense_total st))
  else
    match search_results st with
    | [] => ret no_info_answer
    | rs => llm_call A (AnswerPrompt (question st) rs)
    end.

(** [unsupported_node] *)
Definition unsupported_node (st : agent_state) : string := unsupported_answer.

Inductive path : Type := PathSimple | PathBalance | PathUnsupported.

(** [decide_path] *)
Definition decide_path (st : agent_state) : path :=
  let t := match task_type st with Some t => t | None => "" end in
  if String.eqb t "busqueda_simple" then PathSimple
  else if is_balance_task t then PathBalance
  else PathUnsupported.

Definition initial_state (q : string) : agent_state :=
  mk_state q None None [] 0 0 None.

(** [run]: the compiled graph from the initial state; no handler. *)
Definition run (A : agent_env) (q : string) : M agent_state :=
  let st0 := initial_state q in
  t <- route_question_node A st0 ;;
  let st1 := set_task_type st0 t in
  match decide_path st1 with
  | PathSimple =>
      f <- generate_filter_node A st1 ;;
      let st2 := set_filter_query st1 f in
      rs <- execute_search_node A st2 ;;
      let st3 := set_search_results st2 rs in
      a <- generate_answer_node A st3 ;;
      ret (set_final_answer st3 a)
  | PathBalance =>
      i <- search_income_node A ;;
      let st2 := set_income_total st1 i in
      e <- search_expense_node A ;;
      let st3 := set_expense_total st2 e in
      a <- generate_answer_node A st3 ;;
      ret (set_final_answer st3 a)
  | PathUnsupported => ret (set_final_answer st1 (unsupported_node st1))
  end.

(** [needle] occurs in [hay]. *)
Fixpoint contains (needle hay : string) : bool :=
  String.prefix needle hay
  || match hay with
     | EmptyString => false
     | String _ hay' => contains needle hay'
     end.

(** Where the exceptions of a computation of the graph come from: each one
    was raised by the chat model on a call recorded in the trace, or is the
    [AttributeError] of [_sum_totals]; a computation that returns only
    extends the trace. *)
Definition blamed (A : agent_env) {X : Type} (m : M X) : Prop :=
  forall tr,
    match m tr with
    | (inl e, tr') =>
        (exists p, In (EvLLM p) tr' /\ llm A p = inl e) \/
        e = mk_exn OtherError "object has no attribute 'get'"
    | (inr _, tr') => exists ext, tr' = (tr ++ ext)%list
    end.

End Agent.

(** ** The invoice endpoint (main.py) *)

Module Api.

Import PyStr PyFloat Py Effects Ingest.

(** The form field [partner_name: PartnerName]; FastAPI refuses any other
    value before the endpoint runs. *)
Inductive PartnerName : Type := hernan | joni | maxi | leo.

Definition partner_value (p : PartnerName) : string :=
  match p with
  | hernan => "HERNAN"
  | joni => "JONI"
  | maxi => "MAXI"
  | leo => "LEO"
  end.

(** The uploaded file: its [filename]; the [with tempfile.NamedTemporaryFile]
    block that writes its bytes ([inr] the temporary path, [inl] the
    exception it raises, with [temp_file_path] still [None]); and the
    [finally] clause on a path ([os.path.exists] and [os.remove]: [Some e]
    when it raises [e]). *)
Record upload_file : Type := mk_upload_file {
  filename : string;
  save_temp : exn + string;
  remove_temp : string -> option exn
}.

(** What [/process-invoice/] answers: the [JSONResponse] with status 200 and
    its four keys, or the [HTTPException] it raises. *)
Inductive invoice_response : Type :=
| InvoiceJSON (success : pyval) (message filename : string) (processing_result : dict)
| InvoiceHTTPError (status_code : nat) (detail : string).

Definition server_error (e : exn) : string :=
  "Error interno del servidor: " ++ exn_msg e.

(** The [finally] clause: [if temp_file_path and os.path.exists(...)]. *)
Definition remove_call (F : upload_file) (temp_file_path : option string) : M unit :=
  match temp_file_path with
  | Some p => match remove_temp F p with
              | Some e => raise e
              | None => ret tt
              end
  | None => ret tt
  end.

(** [json.dumps(content, ensure_ascii=False, allow_nan=False)] raises
    [ValueError] on an [inf] or a [nan] anywhere in [content]. *)
Fixpoint finite_floats (v : pyval) : bool :=
  match v with
  | VFloat (PFin _) => true
  | VFloat _ => false
  | VDict d =>
      (fix go (d : list (string * pyval)) : bool :=
         match d with
         | [] => true
         | (_, x) :: d' => finite_floats x && go d'
         end) d
  | _ => true
  end.

Definition is_surrogate (cp : N) : bool := (55296 <=? cp)%N && (cp <=? 57343)%N.

Definition encodable_str (s : string) : bool :=
  forallb (fun ch => negb (is_surrogate (code_point ch))) (chars s).

(** [.encode("utf-8")] of the JSON text raises [UnicodeEncodeError] on a
    lone surrogate in a key or a string. *)
Fixpoint encodable (v : pyval) : bool :=
  match v with
  | VStr s => encodable_str s
  | VDict d =>
      (fix go (d : list (string * pyval)) : bool :=
         match d with
         | [] => true
         | (k, x) :: d' => encodable_str k && encodable x && go d'
         end) d
  | _ => true
  end.

(** [JSONResponse(content=...)] renders its content when it is built; the
    exception it raises, if any (the codec's message, which also names the
    character and its position, is abbreviated here). *)
Definition render_error (content : pyval) : option exn :=
  if negb (finite_floats content)
  then Some (mk_exn ValueError "Out of range float values are not JSON compliant")
  else if negb (encodable content)
  then Some (mk_exn OtherError "surrogates not allowed")
  else None.

(** [response_data] of [process_invoice] *)
Definition response_data (result : dict) (filename : string) : pyval :=
  VDict [("success", dict_get_default result "success" (VBool false));
         ("message", VStr "Procesamiento de factura completado");
         ("filename", VStr filename);
         ("processing_result", VDict result)].

(** [process_invoice] *)
Definition process_invoice (E : env) (F : upload_file) (partner_name : PartnerName)
  : M invoice_response :=
  match save_temp F with
  | inl e =>
      remove_call F None ;;;
      ret (InvoiceHTTPError 500 (server_error e))
  | inr temp_file_path =>
      r <- try_catch
             (result <- process_and_upload_invoice E temp_file_path
                          (partner_value partner_name) ;;
              match render_error (response_data result (filename F)) with
              | Some e => raise e
              | None =>
                  ret (InvoiceJSON (dict_get_default result "success" (VBool false))
                                   "Procesamiento de factura completado"
                                   (filename F) result)
              end)
             (fun e => ret (InvoiceHTTPError 500 (server_error e))) ;;
      remove_call F (Some temp_file_path) ;;;
      ret r
  end.

End Api.

(** ** Concrete inputs *)

Module Samples.

Import PyFloat Py Effects Ingest Agent.

Definition sample_bytes : list Byte.byte := [Byte.x25; Byte.x50; Byte.x44; Byte.x46].

Definition sample_hash : string :=
  "0b3a4e3e21bd8b2a1e1c5c8d8e8f6a1b0c2d4e6f8a0b2c4d6e8f0a1b3c5d7e9f".

Definition sample_doc (model_id : string) (c : Q) : analyzed_document :=
  mk_doc model_id c [("VendorName", Some "ACME SRL"); ("InvoiceTotal", Some "$1.234,56")].

(** The duplicate check finds [dup_count] records ([None]: the query
    fails); each model returns its outcome; the upload returns [up]. *)
Definition sample_env (dup_count : option nat) (emitidas recibidas : analyze_outcome)
  (up : upload_outcome) : env :=
  mk_env (fun _ => inr sample_bytes) (fun _ => sample_hash)
    (fun _ => match dup_count with
              | Some n => SearchOk n []
              | None => SearchRaises (mk_exn OtherError "ServiceRequestError")
              end)
    (fun m _ => if String.eqb m MODELO_EMITIDAS then emitidas else recibidas)
    (fun _ => up) "4f2c9a" "2026-10-15T00:00:00+00:00" (fun _ => "{}").

Definition rejected_by_http : analyze_outcome :=
  AnalyzeRaises (mk_exn HttpResponseError "(ModelNotFound)").

Definition accepted_emitidas : analyze_outcome :=
  AnalyzeOk (Some [sample_doc MODELO_EMITIDAS (97 # 100)]).

Definition accepted_recibidas : analyze_outcome :=
  AnalyzeOk (Some [sample_doc MODELO_RECIBIDAS (99 # 100)]).

Definition low_confidence_recibidas : analyze_outcome :=
  AnalyzeOk (Some [sample_doc MODELO_RECIBIDAS (95 # 100)]).

Definition upload_ok : upload_outcome := UploadOk [mk_indexing_result true None].

Definition upload_rejected : upload_outcome :=
  UploadOk [mk_indexing_result false (Some "Document key is invalid")].

(** A chat model answering [router_reply] to the router. *)
Definition sample_agent (router_reply : exn + string) : agent_env :=
  mk_agent_env
    (fun p => match p with
              | RouterPrompt _ => router_reply
              | FilterPrompt _ => inr "NO_FILTER"
              | AnswerPrompt _ _ => inr "Total: $0"
              end)
    (sample_env (Some 0) rejected_by_http rejected_by_http upload_ok)
    (fun _ => None).

End Samples.

(** Search results whose [content] decodes to an object with a numeric
    [InvoiceTotal] ([rec_income], [rec_expense]), to an object without one
    ([rec_no_total]), to a JSON array ([rec_array]) or to nothing
    ([rec_garbled]). *)
Module ExtraSamples.

Import PyFloat Py Effects Ingest Agent Api Samples.

Definition rec_income : dict := [("id", VStr "invoice_a"); ("content", VStr "a")].
Definition rec_no_total : dict := [("id", VStr "invoice_b"); ("content", VStr "b")].
Definition rec_expense : dict := [("id", VStr "invoice_c"); ("content", VStr "c")].
Definition rec_array : dict := [("id", VStr "invoice_d"); ("content", VStr "d")].
Definition rec_garbled : dict := [("id", VStr "invoice_e"); ("content", VStr "e")].

Definition json_of (s : string) : option json :=
  if String.eqb s "a" then Some (JObj [("InvoiceTotal", JNum 1000)])
  else if String.eqb s "b" then Some (JObj [("VendorName", JStr "ACME SRL")])
  else if String.eqb s "c" then Some (JObj [("InvoiceTotal", JNum 400)])
  else if String.eqb s "d" then Some (JArr [])
  else None.

Definition ledger_index : env :=
  mk_env (fun _ => inr sample_bytes) (fun _ => sample_hash)
    (fun f => if String.eqb f "InvoiceType eq 'ingreso'"
              then SearchOk 2 [rec_income; rec_no_total]
              else if String.eqb f "InvoiceType eq 'egreso'"
              then SearchOk 1 [rec_expense]
              else if String.eqb f "PartnerName eq 'JONI'"
              then SearchOk 1 [rec_expense]
              else if String.eqb f (dup_filter sample_hash)
              then SearchOk 0 []
              else SearchRaises (mk_exn HttpResponseError "Invalid expression"))
    (fun m _ => if String.eqb m MODELO_EMITIDAS then accepted_emitidas
                else accepted_recibidas)
    (fun _ => upload_ok) "4f2c9a" "2026-10-15T00:00:00+00:00" (fun _ => "{}").

(** A chat model that routes every question to [router_reply] and turns
    it into the filter [filter_reply]. *)
Definition ledger_agent (router_reply filter_reply : string) : agent_env :=
  mk_agent_env
    (fun p => match p with
              | RouterPrompt _ => inr router_reply
              | FilterPrompt _ => inr filter_reply
              | AnswerPrompt _ _ => inr "Joni gasto $400,00."
              end)
    ledger_index json_of.

Definition saved_upload : upload_file :=
  mk_upload_file "factura.pdf" (inr "/tmp/tmpab12cd.pdf") (fun _ => None).

(** The index of [ledger_index], with an analyzer that reads the invoice
    total ["inf"]. *)
Definition inf_index : env :=
  mk_env (read_file ledger_index) (sha256_hexdigest ledger_index) (search ledger_index)
    (fun _ _ => AnalyzeOk (Some [mk_doc MODELO_EMITIDAS (97 # 100)
                                   [("VendorName", Some "ACME SRL");
                                    ("InvoiceTotal", Some "inf")]]))
    (upload ledger_index) (uuid4_hex ledger_index) (now_isoformat ledger_index)
    (json_dumps ledger_index).

End ExtraSamples.

(** * Proofs *)

Module CurrencyFacts.

Import PyStr PyFloat Currency Locale.

Lemma str_app_assoc (s1 s2 s3 : string) :
  ((s1 ++ s2) ++ s3)%string = (s1 ++ s2 ++ s3)%string.
Proof. induction s1 as [|a s1 IH]; simpl; [reflexivity | now rewrite IH]. Qed.

Lemma str_app_nil_r (s : string) : (s ++ "")%string = s.
Proof. induction s as [|a s IH]; simpl; [reflexivity | now rewrite IH]. Qed.

Lemma replace_app c r s1 s2 :
  replace c r (s1 ++ s2) = (replace c r s1 ++ replace c r s2)%string.
Proof.
  induction s1 as [|a s1 IH]; simpl; [reflexivity|].
  destruct (Ascii.eqb a c); rewrite IH; [symmetry; apply str_app_assoc | reflexivity].
Qed.

Lemma replace_digits c r ds :
  (forall d, Ascii.eqb (digit_char d) c = false) ->
  replace c r (digits_string ds) = digits_string ds.
Proof.
  intros Hc. induction ds as [|d ds IH]; simpl; [reflexivity|].
  now rewrite Hc, IH.
Qed.

Lemma digits_string_app l1 l2 :
  digits_string (l1 ++ l2) = (digits_string l1 ++ digits_string l2)%string.
Proof. induction l1 as [|d l1 IH]; simpl; [reflexivity | now rewrite IH]. Qed.

Ltac digit_cases := intros []; reflexivity.

Lemma replace_groups_dollar gs : replace "$" "" (groups_string gs) = groups_string gs.
Proof.
  induction gs as [|g gs IH]; simpl; [reflexivity|].
  rewrite replace_app, replace_digits, IH by digit_cases. reflexivity.
Qed.

Lemma replace_groups_dot gs : replace "." "" (groups_string gs) = digits_string (concat gs).
Proof.
  induction gs as [|g gs IH]; simpl; [reflexivity|].
  rewrite replace_app, replace_digits, IH by digit_cases.
  now rewrite digits_string_app.
Qed.

Lemma all_chars_app p s1 s2 :
  all_chars p (s1 ++ s2) = all_chars p s1 && all_chars p s2.
Proof.
  induction s1 as [|a s1 IH]; simpl; [reflexivity|].
  now rewrite IH, andb_assoc.
Qed.

(** The characters no strip removes: ASCII, and whitespace neither for
    [str.strip] nor for [float]. *)
Local Abbreviation plain :=
  (fun c => (byte c <? 128)%N && negb (is_space (byte c)) && negb (c_isspace c)).

Lemma all_chars_impl (p q : ascii -> bool) s :
  (forall c, p c = true -> q c = true) -> all_chars p s = true -> all_chars q s = true.
Proof.
  intros Hpq. induction s as [|c s IH]; simpl; [reflexivity|].
  intros H. apply andb_prop in H as [Hc Hs]. now rewrite (Hpq c Hc), (IH Hs).
Qed.

Lemma chars_ascii s :
  all_chars (fun c => (byte c <? 128)%N) s = true ->
  chars s = map (fun c => String c "") (list_ascii_of_string s).
Proof.
  induction s as [|c s IH]; [reflexivity|].
  cbn [all_chars]. intros H. apply andb_prop in H as [Hc Hs].
  cbn [chars]. rewrite Hc. cbv iota. cbn [list_ascii_of_string map].
  now rewrite (IH Hs).
Qed.

Lemma join_singles l : join (map (fun c => String c "") l) = string_of_list_ascii l.
Proof.
  unfold join. induction l as [|c l IH]; [reflexivity|]. simpl. now rewrite IH.
Qed.

Lemma drop_ws_id cs : Forall (fun ch => is_ws ch = false) cs -> drop_ws cs = cs.
Proof. intros H. destruct H as [|ch cs Hch _]; [reflexivity|]. simpl. now rewrite Hch. Qed.

Lemma plain_forall s :
  all_chars plain s = true -> Forall (fun c => plain c = true) (list_ascii_of_string s).
Proof.
  induction s as [|c s IH]; simpl; [constructor|].
  intros H. apply andb_prop in H as [Hc Hs]. constructor; [exact Hc|exact (IH Hs)].
Qed.

(** [strip] leaves a string of plain characters as it is. *)
Lemma strip_plain s : all_chars plain s = true -> strip s = s.
Proof.
  intros H.
  assert (Ha : all_chars (fun c => (byte c <? 128)%N) s = true).
  { revert H. apply all_chars_impl. intros c Hc.
    apply andb_prop in Hc as [Hc _]. apply andb_prop in Hc as [Hc _]. exact Hc. }
  assert (Hw : Forall (fun ch => is_ws ch = false) (chars s)).
  { rewrite (chars_ascii s Ha). apply Forall_map.
    eapply Forall_impl; [|exact (plain_forall s H)].
    intros c Hc. cbv beta in Hc |- *.
    apply andb_prop in Hc as [Hc _]. apply andb_prop in Hc as [H1 H2].
    unfold is_ws. cbn [code_point]. rewrite H1. now apply negb_true_iff. }
  unfold strip. rewrite (drop_ws_id _ Hw).
  rewrite (drop_ws_id _ (Forall_rev Hw)), rev_involutive.
  rewrite (chars_ascii s Ha), join_singles. apply string_of_list_ascii_of_string.
Qed.

Lemma c_rstrip_id s : all_chars (fun c => negb (c_isspace c)) s = true -> c_rstrip s = s.
Proof.
  induction s as [|c s IH]; simpl; [reflexivity|].
  intros H. apply andb_prop in H as [Hc Hs].
  rewrite (IH Hs). destruct s; [|reflexivity].
  destruct (c_isspace c); [discriminate | reflexivity].
Qed.

(** So does the stripping of [float]. *)
Lemma c_strip_plain s : all_chars plain s = true -> c_strip s = s.
Proof.
  intros H.
  assert (Hn : all_chars (fun c => negb (c_isspace c)) s = true).
  { revert H. apply all_chars_impl. intros c Hc. now apply andb_prop in Hc as [_ Hc]. }
  unfold c_strip. destruct s as [|c s']; [reflexivity|].
  pose proof Hn as Hn'. cbn [all_chars] in Hn'. apply andb_prop in Hn' as [Hc _].
  apply negb_true_iff in Hc. cbn [c_lstrip]. rewrite Hc. now apply c_rstrip_id.
Qed.

(** ... and the transformation to ASCII. *)
Lemma transform_plain s : all_chars plain s = true -> transform s = s.
Proof.
  intros H. unfold transform.
  rewrite (all_chars_impl plain (fun c => (byte c <? 128)%N) s); [reflexivity| |exact H].
  intros c Hc. apply andb_prop in Hc as [Hc _]. apply andb_prop in Hc as [Hc _]. exact Hc.
Qed.

Lemma all_digits ds : all_chars plain (digits_string ds) = true.
Proof. induction ds as [|[] ds IH]; simpl; auto. Qed.

Lemma all_groups gs : all_chars plain (groups_string gs) = true.
Proof.
  induction gs as [|g gs IH]; simpl; [reflexivity|].
  now rewrite all_chars_app, all_digits, IH.
Qed.

Lemma digits_tail_app ds r :
  digits_tail (digits_string ds ++ r) =
  let '(xs, r') := digits_tail r in ((map digit_nat ds ++ xs)%list, r').
Proof.
  induction ds as [|d ds IH]; simpl.
  - destruct (digits_tail r); reflexivity.
  - rewrite IH. destruct (digits_tail r) as [xs r'].
    destruct d; reflexivity.
Qed.

Lemma digitpart_digits d ds r :
  digits_tail r = ([], r) ->
  digitpart (digits_string (d :: ds) ++ r) = Some (map digit_nat (d :: ds), r).
Proof.
  intros Hr. simpl.
  assert (Hd : is_digit (digit_char d) = true /\ digit_val (digit_char d) = digit_nat d)
    by (destruct d; split; reflexivity).
  destruct Hd as [Hd Hv]. rewrite Hd, digits_tail_app, Hr, app_nil_r, Hv.
  reflexivity.
Qed.

Lemma parse_sign_digit d x :
  parse_sign (String (digit_char d) x) = (false, String (digit_char d) x).
Proof. destruct d; reflexivity. Qed.

Lemma keywords_digit d x :
  String.eqb (lower (String (digit_char d) x)) "inf" = false /\
  String.eqb (lower (String (digit_char d) x)) "infinity" = false /\
  String.eqb (lower (String (digit_char d) x)) "nan" = false.
Proof. destruct d; repeat split; reflexivity. Qed.

Lemma eqb_dot_digit d : Ascii.eqb (digit_char d) "." = false.
Proof. destruct d; reflexivity. Qed.

(** [float] of an unsigned digit string followed by [r]: the number part. *)
Lemma py_float_digits_prefix d ds r :
  all_chars plain r = true ->
  py_float (digits_string (d :: ds) ++ r) =
  match parse_number (digits_string (d :: ds) ++ r) with
  | Some (ip, fp, r) =>
      match exponent_to_end r with
      | Some e =>
          Some (to_float false (inject_Z (digits_Z (ip ++ fp))
                                * Qpower 10 (e - Z.of_nat (length fp)))%Q)
      | None => None
      end
  | None => None
  end.
Proof.
  intros Hr. unfold py_float.
  assert (Hp : all_chars plain (digits_string (d :: ds) ++ r) = true)
    by (rewrite all_chars_app, all_digits, Hr; reflexivity).
  rewrite (transform_plain _ Hp), (c_strip_plain _ Hp).
  simpl digits_string at 1. simpl append at 1.
  rewrite parse_sign_digit.
  destruct (keywords_digit d (digits_string ds ++ r)) as (H1 & H2 & H3).
  cbv beta iota zeta. rewrite H1, H2, H3. reflexivity.
Qed.

Lemma parse_number_digits d ds r :
  digits_tail r = ([], r) ->
  parse_number (digits_string (d :: ds) ++ r) =
  match r with
  | String c r' =>
      if Ascii.eqb c "." then
        match digitpart r' with
        | Some (fp, r'') => Some (map digit_nat (d :: ds), fp, r'')
        | None => Some (map digit_nat (d :: ds), [], r')
        end
      else Some (map digit_nat (d :: ds), [], r)
  | EmptyString => Some (map digit_nat (d :: ds), [], r)
  end.
Proof.
  intros Hr. pose proof (digitpart_digits d ds r Hr) as Hp.
  simpl in Hp |- *. rewrite eqb_dot_digit, Hp. reflexivity.
Qed.

Lemma digits_Z_value ds : digits_Z (map digit_nat ds) = digits_value ds.
Proof.
  unfold digits_Z, digits_value.
  generalize 0%Z as acc.
  induction ds as [|d ds IH]; intros acc; cbn [fold_left map]; [reflexivity|].
  rewrite IH. f_equal. lia.
Qed.

Lemma fold_digits_acc ds acc :
  fold_left (fun acc d => acc * 10 + Z.of_nat (digit_nat d))%Z ds acc =
  (acc * 10 ^ Z.of_nat (length ds) + digits_value ds)%Z.
Proof.
  unfold digits_value. revert acc.
  induction ds as [|d ds IH]; intros acc; cbn [fold_left length]; [lia|].
  rewrite (IH (acc * 10 + _)%Z), (IH (0 * 10 + _)%Z).
  rewrite Nat2Z.inj_succ, Z.pow_succ_r by lia. ring.
Qed.

Lemma digits_value_app l1 l2 :
  digits_value (l1 ++ l2) =
  (digits_value l1 * 10 ^ Z.of_nat (length l2) + digits_value l2)%Z.
Proof.
  unfold digits_value at 1. rewrite fold_left_app.
  rewrite fold_digits_acc. reflexivity.
Qed.

(** [float(digits)] *)
Lemma py_float_digits d ds :
  exists q, py_float (digits_string (d :: ds)) = Some (to_float false q) /\
            (q == inject_Z (digits_value (d :: ds)))%Q.
Proof.
  rewrite <- (str_app_nil_r (digits_string (d :: ds))).
  rewrite py_float_digits_prefix by reflexivity.
  rewrite parse_number_digits by reflexivity.
  eexists; split; [reflexivity|].
  rewrite app_nil_r.
  change (digit_nat d :: map digit_nat ds) with (map digit_nat (d :: ds)).
  rewrite digits_Z_value. simpl Qpower. apply Qmult_1_r.
Qed.

(** [float(digits "." digits)] *)
Lemma py_float_digits_dot d ds f :
  exists q, py_float (digits_string (d :: ds) ++ "." ++ digits_string f) =
            Some (to_float false q) /\
            (q == inject_Z (digits_value (d :: ds))
                   + inject_Z (digits_value f) / inject_Z (10 ^ Z.of_nat (length f)))%Q.
Proof.
  rewrite py_float_digits_prefix by (simpl; apply all_digits).
  rewrite parse_number_digits by reflexivity.
  change ("." ++ digits_string f)%string with (String "." (digits_string f)).
  cbv iota beta. rewrite Ascii.eqb_refl.
  assert (Hf : exists fp, match digitpart (digits_string f) with
                 | Some (fp, r'') => Some (map digit_nat (d :: ds), fp, r'')
                 | None => Some (map digit_nat (d :: ds), [], digits_string f)
                 end = Some (map digit_nat (d :: ds), fp, EmptyString)
                 /\ fp = map digit_nat f).
  { destruct f as [|e es].
    - exists []. split; reflexivity.
    - rewrite <- (str_app_nil_r (digits_string (e :: es))).
      rewrite digitpart_digits by reflexivity. eexists; split; reflexivity. }
  destruct Hf as (fp & -> & ->). cbv iota. simpl exponent_to_end.
  eexists; split; [reflexivity|].
  rewrite <- map_app.
  change (digit_nat d :: map digit_nat (ds ++ f))%list
    with (map digit_nat ((d :: ds) ++ f)).
  rewrite digits_Z_value, digits_value_app, length_map.
  set (n := Z.of_nat (length f)).
  assert (Hn : (0 <= n)%Z) by lia.
  rewrite Qpower_opp, <- (Zpower_Qpower 10 n Hn).
  assert (Hnz : ~ (inject_Z (10 ^ n) == 0)%Q).
  { intros H. apply (proj1 (inject_Z_injective _ 0)) in H.
    pose proof (Z.pow_pos_nonneg 10 n). lia. }
  rewrite inject_Z_plus, inject_Z_mult. field. exact Hnz.
Qed.

Lemma replace_dollar_prefix (sym : bool) x :
  replace "$" "" ((if sym then "$" else "") ++ x) = replace "$" "" x.
Proof. destruct sym; reflexivity. Qed.

(** What [clean_currency] hands to [float] for an amount of the pattern. *)
Lemma rewrite_render a :
  rewrite_amount (render a) =
  (digits_string (first_digit a :: lead a ++ concat (groups a))
   ++ match frac a with
      | Some f => "." ++ digits_string f
      | None => ""
      end)%string.
Proof.
  destruct a as [sym d ld gs fr]. unfold rewrite_amount, render. simpl symbol.
  rewrite replace_dollar_prefix.
  simpl first_digit; simpl lead; simpl groups; simpl frac.
  rewrite !replace_app, replace_digits, replace_groups_dollar by digit_cases.
  assert (Hfr : replace "$" "" match fr with
                                | Some f => "," ++ digits_string f
                                | None => "" end
                = match fr with
                  | Some f => "," ++ digits_string f
                  | None => "" end).
  { destruct fr as [f|]; [|reflexivity]. simpl.
    now rewrite replace_digits by digit_cases. }
  rewrite Hfr. rewrite strip_plain.
  2: { rewrite !all_chars_app, all_digits, all_groups.
       destruct fr as [f|]; [simpl; apply all_digits | reflexivity]. }
  rewrite !replace_app, replace_digits, replace_groups_dot by digit_cases.
  destruct fr as [f|].
  - simpl replace at 2. rewrite replace_digits by digit_cases.
    rewrite !replace_app, !replace_digits by digit_cases.
    change (replace "," "." (replace "." "" ",")) with ".".
    change (d :: ld ++ concat gs)%list with ((d :: ld) ++ concat gs)%list.
    rewrite digits_string_app, str_app_assoc. reflexivity.
  - rewrite !replace_digits by digit_cases.
    change (replace "," "." (replace "." "" "")) with "".
    change (d :: ld ++ concat gs)%list with ((d :: ld) ++ concat gs)%list.
    rewrite !str_app_nil_r, digits_string_app. reflexivity.
Qed.

(** What [clean_currency] hands to [float] for ["<digits>.<digits>"]. *)
Lemma rewrite_dot_decimal sym d ip fp :
  rewrite_amount (dot_decimal sym d ip fp) = digits_string (d :: ip ++ fp).
Proof.
  unfold rewrite_amount, dot_decimal. rewrite replace_dollar_prefix.
  rewrite !replace_app, !replace_digits by digit_cases.
  change (replace "$" "" ".") with ".".
  rewrite strip_plain.
  2: { rewrite !all_chars_app, !all_digits. reflexivity. }
  rewrite !replace_app, !replace_digits by digit_cases.
  change (replace "," "." (replace "." "" ".")) with "".
  change (d :: ip ++ fp)%list with ((d :: ip) ++ fp)%list.
  rewrite digits_string_app. reflexivity.
Qed.

Lemma render_not_us_style a : render a <> "1,234.56".
Proof.
  destruct a as [[] d ld gs fr]; unfold render; simpl; [discriminate|].
  destruct d; try discriminate. intros H. injection H as H.
  destruct ld as [|e ld]; [|destruct e; discriminate].
  destruct gs as [|g gs]; [|discriminate].
  destruct fr as [f|]; [|discriminate]. simpl in H. injection H as H.
  do 3 (destruct f as [|e f]; [discriminate|]; simpl in H; destruct e; try discriminate;
        injection H as H).
  destruct f as [|e f]; [discriminate|]. destruct e; discriminate.
Qed.

Lemma to_float_finite q q' :
  (q == q')%Q -> (q' < overflow_threshold)%Q -> feq (to_float false q) q'.
Proof.
  intros Hq Hlt. unfold to_float.
  destruct (Qle_bool overflow_threshold q) eqn:H.
  - apply Qle_bool_iff in H. rewrite Hq in H.
    exfalso. exact (Qlt_not_le _ _ Hlt H).
  - exact Hq.
Qed.

Lemma to_float_overflow q q' :
  (q == q')%Q -> (overflow_threshold <= q')%Q -> to_float false q = PInf false.
Proof.
  intros Hq Hle. unfold to_float.
  rewrite <- Hq in Hle. apply Qle_bool_iff in Hle. now rewrite Hle.
Qed.

(** [clean_currency] of an amount of the pattern: the number it denotes,
    or [inf] from the overflow threshold on. *)
Lemma clean_currency_render a :
  exists q, clean_currency (Some (render a)) = to_float false q /\ (q == denote a)%Q.
Proof.
  unfold clean_currency. rewrite rewrite_render.
  unfold denote. destruct (frac a) as [f|].
  - destruct (py_float_digits_dot (first_digit a) (lead a ++ concat (groups a)) f)
      as (q & Hv & Hq).
    rewrite Hv. eauto.
  - rewrite str_app_nil_r.
    destruct (py_float_digits (first_digit a) (lead a ++ concat (groups a)))
      as (q & Hv & Hq).
    rewrite Hv. exists q. split; [reflexivity|]. rewrite Hq. ring.
Qed.

(** [clean_currency] of ["<digits>.<digits>"]: the digits read as one
    integer, or [inf] from the overflow threshold on. *)
Lemma clean_currency_dot_decimal sym d ip fp :
  exists q, clean_currency (Some (dot_decimal sym d ip fp)) = to_float false q /\
            (q == inject_Z (digits_value (d :: ip ++ fp)))%Q.
Proof.
  unfold clean_currency. rewrite rewrite_dot_decimal.
  destruct (py_float_digits d (ip ++ fp)) as (q & Hv & Hq). rewrite Hv. eauto.
Qed.

End CurrencyFacts.

Module IngestFacts.

Import Py Effects Ingest.

(** [_analyze_with_model] makes exactly one call, whatever it returns. *)
Lemma analyze_with_model_trace E m b tr :
  snd (analyze_with_model E m b tr) = (tr ++ [EvAnalyze m])%list.
Proof.
  unfold analyze_with_model, try_catch, bind, analyze_call, emit, ret, raise.
  destruct (analyze E m b) as [[[|d ds]|]|e]; simpl; try reflexivity.
  - destruct (String.eqb (doc_type d) m && _); reflexivity.
  - destruct (exn_kind e); reflexivity.
Qed.

Lemma analyze_with_model_result E m b tr :
  fst (analyze_with_model E m b tr) =
  match analyze E m b with
  | AnalyzeOk (Some ((d :: _) as docs)) =>
      inr (if String.eqb (doc_type d) m
              && negb (Qle_bool (confidence d) confidence_threshold)
           then Some docs else None)
  | AnalyzeOk _ => inr None
  | AnalyzeRaises e =>
      match exn_kind e with
      | HttpResponseError => inr None
      | _ => inl e
      end
  end.
Proof.
  unfold analyze_with_model, try_catch, bind, analyze_call, emit, ret, raise.
  destruct (analyze E m b) as [[[|d ds]|]|e]; simpl; try reflexivity.
  - destruct (String.eqb (doc_type d) m && _); reflexivity.
  - destruct (exn_kind e); reflexivity.
Qed.

Lemma analyze_with_model_eq E m b tr :
  analyze_with_model E m b tr =
  (fst (analyze_with_model E m b tr), (tr ++ [EvAnalyze m])%list).
Proof.
  rewrite <- (analyze_with_model_trace E m b tr). apply surjective_pairing.
Qed.

Lemma classify_eq E b tr :
  classify E b tr =
  match fst (analyze_with_model E MODELO_EMITIDAS b tr) with
  | inl e => (inl e, (tr ++ [EvAnalyze MODELO_EMITIDAS])%list)
  | inr (Some r) => (inr (Some r, Some "ingreso"), (tr ++ [EvAnalyze MODELO_EMITIDAS])%list)
  | inr None =>
      match fst (analyze_with_model E MODELO_RECIBIDAS b
                   (tr ++ [EvAnalyze MODELO_EMITIDAS])%list) with
      | inl e => (inl e, (tr ++ [EvAnalyze MODELO_EMITIDAS; EvAnalyze MODELO_RECIBIDAS])%list)
      | inr (Some r) =>
          (inr (Some r, Some "egreso"),
           (tr ++ [EvAnalyze MODELO_EMITIDAS; EvAnalyze MODELO_RECIBIDAS])%list)
      | inr None =>
          (inr (None, None), (tr ++ [EvAnalyze MODELO_EMITIDAS; EvAnalyze MODELO_RECIBIDAS])%list)
      end
  end.
Proof.
  unfold classify, bind at 1. cbv beta. rewrite analyze_with_model_eq.
  destruct (fst (analyze_with_model E MODELO_EMITIDAS b tr)) as [e|[r|]];
    try reflexivity.
  unfold bind. cbv beta. rewrite analyze_with_model_eq, <- app_assoc.
  destruct (fst (analyze_with_model E MODELO_RECIBIDAS b _)) as [e|[r|]];
    reflexivity.
Qed.

(** The classification step only calls the analyzer, and tags an accepted
    result with one of the two invoice types. *)
Lemma classify_shape E b tr :
  (exists ext, snd (classify E b tr) = (tr ++ ext)%list /\
               forall ev, In ev ext -> exists m, ev = EvAnalyze m) /\
  (forall r t, fst (classify E b tr) = inr (Some r, Some t) ->
               t = "ingreso" \/ t = "egreso").
Proof.
  rewrite classify_eq.
  destruct (fst (analyze_with_model E MODELO_EMITIDAS b tr)) as [e|[r|]];
    [| |destruct (fst (analyze_with_model E MODELO_RECIBIDAS b _)) as [e|[r|]]];
    simpl; split;
    try (eexists; split; [reflexivity|]; simpl;
         intros ev Hev; repeat destruct Hev as [<-|Hev]; eauto; contradiction);
    intros r' t Ht; try discriminate; injection Ht as <- <-; auto.
Qed.

Lemma is_duplicate_eq E h tr :
  is_duplicate E h tr =
  (inr match search E (dup_filter h) with
       | SearchOk n _ => 0 <? n
       | SearchRaises _ => true
       end, (tr ++ [EvSearch (dup_filter h)])%list).
Proof.
  unfold is_duplicate, try_catch, bind, search_call, emit, ret, raise.
  destruct (search E (dup_filter h)); reflexivity.
Qed.

Lemma process_eq E path partner tr :
  process_and_upload_invoice E path partner tr =
  match read_file E path with
  | inl e => (inr [("success", VBool false); ("error", VStr (exn_msg e))], tr)
  | inr b =>
      let h := sha256_hexdigest E b in
      let tr1 := (tr ++ [EvSearch (dup_filter h)])%list in
      if match search E (dup_filter h) with
         | SearchOk n _ => 0 <? n
         | SearchRaises _ => true
         end
      then (inr duplicate_result, tr1)
      else
        match classify E b tr1 with
        | (inr (Some r, Some t), tr2) =>
            let doc := create_structured_document E (extract_invoice_fields r)
                         path t partner h in
            match upload E [doc] with
            | UploadOk rs =>
                (inr [("success", VBool match rs with
                                        | x :: _ => succeeded x
                                        | [] => false
                                        end);
                      ("invoice_data", VDict (extract_invoice_fields r));
                      ("invoice_type", VStr t)], (tr2 ++ [EvUpload [doc]])%list)
            | UploadRaises e =>
                (inr [("success", VBool false); ("error", VStr (exn_msg e))],
                 (tr2 ++ [EvUpload [doc]])%list)
            end
        | (inr _, tr2) =>
            (inr [("success", VBool false); ("error", VStr no_model_msg)], tr2)
        | (inl e, tr2) =>
            (inr [("success", VBool false); ("error", VStr (exn_msg e))], tr2)
        end
  end.
Proof.
  unfold process_and_upload_invoice, process_body, try_catch, bind at 1, read_call.
  destruct (read_file E path) as [e|b]; [reflexivity|].
  unfold ret at 1, bind at 1. rewrite is_duplicate_eq.
  destruct (match search E _ with SearchOk n _ => _ | SearchRaises _ => _ end);
    [reflexivity|].
  unfold bind at 1.
  destruct (classify E b _) as [[e|[[r|] [t|]]] tr2]; try reflexivity.
  unfold bind, upload_call, emit, ret, raise.
  destruct (upload E _); reflexivity.
Qed.

Lemma process_duplicate E path partner b :
  read_file E path = inr b ->
  match search E (dup_filter (sha256_hexdigest E b)) with
  | SearchOk n _ => 0 <? n
  | SearchRaises _ => true
  end = true ->
  process_and_upload_invoice E path partner [] =
  (inr duplicate_result, [EvSearch (dup_filter (sha256_hexdigest E b))]).
Proof. intros Hr Hd. rewrite process_eq, Hr. cbv zeta. now rewrite Hd. Qed.

(** The calls before the upload stage are searches and analyses. *)
Lemma classify_no_upload E b f docs :
  ~ In (EvUpload docs) (snd (classify E b [EvSearch f])).
Proof.
  destruct (classify_shape E b [EvSearch f]) as [[ext [-> Hext]] _].
  intros [H|H]; [discriminate|]. destruct (Hext _ H) as [m Hm]. discriminate.
Qed.

Lemma analyze_with_model_fst E m b tr :
  fst (analyze_with_model E m b tr) = fst (analyze_with_model E m b []).
Proof. now rewrite !analyze_with_model_result. Qed.

(** [_analyze_with_model] raises only what the analyzer raised, and not an
    [HttpResponseError]. *)
Lemma analyze_with_model_raises E m b tr e :
  fst (analyze_with_model E m b tr) = inl e ->
  analyze E m b = AnalyzeRaises e /\ exn_kind e <> HttpResponseError.
Proof.
  rewrite analyze_with_model_result.
  destruct (analyze E m b) as [[[|d ds]|]|e']; try discriminate.
  destruct (exn_kind e') eqn:Hk; try discriminate;
      intros H; injection H as <-; (split; [reflexivity|rewrite Hk; discriminate]).
Qed.

(** The outcomes of one ingestion run, by the stage it stops at. *)
Lemma process_outcomes E path partner :
  match read_file E path with
  | inl e =>
      process_and_upload_invoice E path partner [] =
      (inr [("success", VBool false); ("error", VStr (exn_msg e))], [])
  | inr b =>
      let h := sha256_hexdigest E b in
      if match search E (dup_filter h) with
         | SearchOk n _ => 0 <? n
         | SearchRaises _ => true
         end
      then process_and_upload_invoice E path partner [] =
           (inr duplicate_result, [EvSearch (dup_filter h)])
      else
        (exists e,
            exn_kind e <> HttpResponseError /\
            fst (process_and_upload_invoice E path partner []) =
            inr [("success", VBool false); ("error", VStr (exn_msg e))] /\
            ((analyze E MODELO_EMITIDAS b = AnalyzeRaises e /\
              snd (process_and_upload_invoice E path partner []) =
              [EvSearch (dup_filter h); EvAnalyze MODELO_EMITIDAS]) \/
             (fst (analyze_with_model E MODELO_EMITIDAS b []) = inr None /\
              analyze E MODELO_RECIBIDAS b = AnalyzeRaises e /\
              snd (process_and_upload_invoice E path partner []) =
              [EvSearch (dup_filter h); EvAnalyze MODELO_EMITIDAS;
               EvAnalyze MODELO_RECIBIDAS]))) \/
        (fst (analyze_with_model E MODELO_EMITIDAS b []) = inr None /\
         fst (analyze_with_model E MODELO_RECIBIDAS b []) = inr None /\
         process_and_upload_invoice E path partner [] =
         (inr [("success", VBool false); ("error", VStr no_model_msg)],
          [EvSearch (dup_filter h); EvAnalyze MODELO_EMITIDAS;
           EvAnalyze MODELO_RECIBIDAS])) \/
        (exists r t pre,
            ((t = "ingreso" /\ fst (analyze_with_model E MODELO_EMITIDAS b []) = inr (Some r) /\
              pre = [EvSearch (dup_filter h); EvAnalyze MODELO_EMITIDAS]) \/
             (t = "egreso" /\ fst (analyze_with_model E MODELO_EMITIDAS b []) = inr None /\
              fst (analyze_with_model E MODELO_RECIBIDAS b []) = inr (Some r) /\
              pre = [EvSearch (dup_filter h); EvAnalyze MODELO_EMITIDAS;
                     EvAnalyze MODELO_RECIBIDAS])) /\
            let doc := create_structured_document E (extract_invoice_fields r)
                         path t partner h in
            snd (process_and_upload_invoice E path partner []) =
            (pre ++ [EvUpload [doc]])%list /\
            fst (process_and_upload_invoice E path partner []) =
            inr match upload E [doc] with
                | UploadOk rs =>
                    [("success", VBool match rs with
                                       | x :: _ => succeeded x
                                       | [] => false
                                       end);
                     ("invoice_data", VDict (extract_invoice_fields r));
                     ("invoice_type", VStr t)]
                | UploadRaises e => [("success", VBool false); ("error", VStr (exn_msg e))]
                end)
  end.
Proof.
  rewrite process_eq.
  destruct (read_file E path) as [e|b]; [reflexivity|].
  cbv zeta.
  destruct (match search E _ with SearchOk n _ => _ | SearchRaises _ => _ end);
    [reflexivity|].
  rewrite classify_eq. cbn [app].
  rewrite (analyze_with_model_fst E MODELO_EMITIDAS b [_]).
  rewrite (analyze_with_model_fst E MODELO_RECIBIDAS b [_; _]).
  destruct (fst (analyze_with_model E MODELO_EMITIDAS b [])) as [e|[r|]] eqn:H1.
  - left. exists e.
    destruct (analyze_with_model_raises _ _ _ _ _ H1) as [Ha Hk].
    split; [exact Hk|]. split; [reflexivity|]. left. split; [exact Ha|reflexivity].
  - right. right. exists r, "ingreso", [EvSearch (dup_filter (sha256_hexdigest E b));
                                       EvAnalyze MODELO_EMITIDAS].
    split; [left; auto|]. cbv zeta. destruct (upload E _); split; reflexivity.
  - destruct (fst (analyze_with_model E MODELO_RECIBIDAS b [])) as [e|[r|]] eqn:H2.
    + left. exists e.
      destruct (analyze_with_model_raises _ _ _ _ _ H2) as [Ha Hk].
      split; [exact Hk|]. split; [reflexivity|]. right. auto.
    + right. right.
      exists r, "egreso", [EvSearch (dup_filter (sha256_hexdigest E b));
                           EvAnalyze MODELO_EMITIDAS; EvAnalyze MODELO_RECIBIDAS].
      split; [right; auto|]. cbv zeta. destruct (upload E _); split; reflexivity.
    + right. left. auto.
Qed.

End IngestFacts.

Module AgentFacts.

Import PyStr Py Effects Ingest Agent.

Lemma prefix_refl s : String.prefix s s = true.
Proof.
  induction s as [|a s IH]; [reflexivity|].
  simpl. destruct (ascii_dec a a) as [_|n]; [exact IH|contradiction].
Qed.

Lemma contains_of_prefix n h : String.prefix n h = true -> contains n h = true.
Proof. intros H. destruct h; cbn [contains]; rewrite H; reflexivity. Qed.

Lemma contains_refl s : contains s s = true.
Proof. apply contains_of_prefix, prefix_refl. Qed.

Lemma prefix_app n s : String.prefix n (n ++ s) = true.
Proof.
  induction n as [|a n IH]; [destruct s; reflexivity|].
  simpl. destruct (ascii_dec a a) as [_|m]; [exact IH|contradiction].
Qed.

Lemma contains_prefix n s : contains n (n ++ s) = true.
Proof. apply contains_of_prefix, prefix_app. Qed.

Lemma contains_app_r n p s : contains n s = true -> contains n (p ++ s) = true.
Proof.
  intros H. induction p as [|a p IH]; [exact H|].
  simpl. rewrite IH. apply orb_true_r.
Qed.


Section Blame.

Variable A : agent_env.

Lemma blamed_ret {X} (x : X) : blamed A (ret x).
Proof. intros tr. exists []. now rewrite app_nil_r. Qed.

Lemma blamed_bind {X Y} (m : M X) (k : X -> M Y) :
  blamed A m -> (forall x, blamed A (k x)) -> blamed A (bind m k).
Proof.
  intros Hm Hk tr. unfold bind. specialize (Hm tr).
  destruct (m tr) as [[e|x] tr1]; [exact Hm|].
  destruct Hm as [ext ->]. specialize (Hk x (tr ++ ext)%list).
  destruct (k x _) as [[e|y] tr2]; [exact Hk|].
  destruct Hk as [ext2 ->]. exists (ext ++ ext2)%list. now rewrite app_assoc.
Qed.

Lemma blamed_llm p : blamed A (llm_call A p).
Proof.
  intros tr. unfold llm_call, bind, emit, raise, ret.
  destruct (llm A p) as [e|c] eqn:H.
  - left. exists p. split; [|exact H]. apply in_or_app. right. now left.
  - eexists. reflexivity.
Qed.

Lemma blamed_query f : blamed A (query_invoices (index A) f).
Proof.
  intros tr. unfold query_invoices, try_catch, bind, search_call, emit, raise, ret.
  destruct (search (index A) f); eexists; reflexivity.
Qed.

Lemma blamed_sum total rs : blamed A (sum_totals_from A total rs).
Proof.
  revert total. induction rs as [|r rs IH]; intros total; cbn [sum_totals_from].
  - apply blamed_ret.
  - destruct (dict_get_default r "content" (VStr "{}")); try apply IH.
    destruct (json_loads A s) as [[| | | | |kvs]|]; try apply IH;
      try (intros tr; right; reflexivity).
    destruct (add_total _ _); apply IH.
Qed.

Create HintDb blame.
#[local] Hint Resolve blamed_ret blamed_llm blamed_query blamed_sum : blame.

Ltac blame :=
  repeat first [solve [auto with blame] | apply blamed_bind; [|intros]].

Lemma blamed_execute_search st : blamed A (execute_search_node A st).
Proof.
  unfold execute_search_node.
  destruct (filter_query st); [destruct (_ && _)|]; auto with blame.
Qed.

Lemma blamed_generate_answer st : blamed A (generate_answer_node A st).
Proof.
  unfold generate_answer_node. cbv zeta.
  destruct (match task_type st with Some t => is_balance_task t | None => false end);
    [|destruct (search_results st)]; auto with blame.
Qed.

#[local] Hint Resolve blamed_execute_search blamed_generate_answer : blame.


End Blame.

End AgentFacts.

(** * The claims *)

Import PyFloat Currency Locale CurrencyFacts.

(** C5 (as amended).  Every amount of the locale pattern (optional [$],
    ['.'] between digit groups, optional [','] and decimals) whose value is
    below the float overflow threshold 2^1024 - 2^970 (about 1.8e308) is
    parsed to the number it denotes, e.g. ["$1.234,56"] to 1234.56; from
    the threshold on it is parsed to [inf].  An absent value and every
    string whose rewritten form is not a Python float literal parse to 0.0;
    a malformed string whose rewritten form is such a literal parses to
    that number, e.g. ["1,234.56"] to 1.23456. *)
Theorem clean_currency_locale_amended :
  (forall a, (denote a < overflow_threshold)%Q ->
             feq (clean_currency (Some (render a))) (denote a)) /\
  (forall a, (overflow_threshold <= denote a)%Q ->
             clean_currency (Some (render a)) = PInf false) /\
  feq (clean_currency (Some "$1.234,56")) (123456 # 100) /\
  clean_currency None = PFin 0 /\
  (forall s, py_float (rewrite_amount s) = None -> clean_currency (Some s) = PFin 0) /\
  (forall s v, py_float (rewrite_amount s) = Some v -> clean_currency (Some s) = v) /\
  feq (clean_currency (Some "1,234.56")) (123456 # 100000).
Proof.
  split; [|split; [|split; [reflexivity|split; [reflexivity|split; [|split]]]]].
  - intros a Ha. destruct (clean_currency_render a) as (q & -> & Hq).
    exact (to_float_finite _ _ Hq Ha).
  - intros a Ha. destruct (clean_currency_render a) as (q & -> & Hq).
    exact (to_float_overflow _ _ Hq Ha).
  - intros s Hs. unfold clean_currency. now rewrite Hs.
  - intros s v Hs. unfold clean_currency. now rewrite Hs.
  - reflexivity.
Qed.

(** ["$1.234,56"] as an amount of the pattern. *)
Lemma clean_currency_locale_amended_witness :
  render (mk_amount true D1 [] [[D2; D3; D4]] (Some [D5; D6])) = "$1.234,56" /\
  feq (clean_currency (Some "$1.234,56"))
      (denote (mk_amount true D1 [] [[D2; D3; D4]] (Some [D5; D6]))).
Proof.
  split; [reflexivity|].
  apply (proj1 clean_currency_locale_amended
           (mk_amount true D1 [] [[D2; D3; D4]] (Some [D5; D6]))).
  vm_compute. reflexivity.
Defined.

(** C5 (counterexample).  ["1,234.56"] is not of the locale pattern, yet it
    is not parsed to 0.0: the parser returns 1.23456. *)
Lemma clean_currency_malformed_not_zero :
  (forall a, render a <> "1,234.56") /\
  ~ feq (clean_currency (Some "1,234.56")) 0.
Proof.
  split; [exact render_not_us_style|].
  vm_compute. discriminate.
Qed.

(** C10 (counterexample).  An amount with 310 digits and a ['.'] is not
    parsed to the integer of its digits: [float] overflows to [inf]. *)
Lemma clean_currency_dot_deleted_overflow :
  clean_currency (Some (dot_decimal false D1 (repeat D0 308) [D0])) = PInf false /\
  ~ feq (clean_currency (Some (dot_decimal false D1 (repeat D0 308) [D0])))
        (inject_Z (digits_value (D1 :: repeat D0 308 ++ [D0]))).
Proof.
  assert (H : clean_currency (Some (dot_decimal false D1 (repeat D0 308) [D0]))
              = PInf false) by (vm_compute; reflexivity).
  split; [exact H|]. rewrite H. intros [].
Qed.

(** C10 (as amended).  Every ['.'] is deleted before the conversion: an
    amount written ["<digits>.<digits>"] (optionally after [$]) with no
    [','] is parsed to the integer formed by its digits without the dot,
    e.g. ["1234.56"] to 123456.0, when that integer is below the float
    overflow threshold 2^1024 - 2^970; from the threshold on it is parsed
    to [inf]. *)
Theorem clean_currency_dot_deleted_amended :
  (forall sym d ip fp,
     (inject_Z (digits_value (d :: ip ++ fp)) < overflow_threshold)%Q ->
     feq (clean_currency (Some (dot_decimal sym d ip fp)))
         (inject_Z (digits_value (d :: ip ++ fp)))) /\
  (forall sym d ip fp,
     (overflow_threshold <= inject_Z (digits_value (d :: ip ++ fp)))%Q ->
     clean_currency (Some (dot_decimal sym d ip fp)) = PInf false) /\
  dot_decimal false D1 [D2; D3; D4] [D5; D6] = "1234.56" /\
  clean_currency (Some "1234.56") = PFin 123456.
Proof.
  split; [|split; [|split; reflexivity]].
  - intros sym d ip fp Hlt.
    destruct (clean_currency_dot_decimal sym d ip fp) as (q & -> & Hq).
    exact (to_float_finite _ _ Hq Hlt).
  - intros sym d ip fp Hle.
    destruct (clean_currency_dot_decimal sym d ip fp) as (q & -> & Hq).
    exact (to_float_overflow _ _ Hq Hle).
Qed.

Lemma clean_currency_dot_deleted_amended_witness :
  feq (clean_currency (Some (dot_decimal true D1 [D2; D3; D4] [D5; D6])))
      (inject_Z (digits_value (D1 :: [D2; D3; D4] ++ [D5; D6]))).
Proof.
  apply (proj1 clean_currency_dot_deleted_amended true D1 [D2; D3; D4] [D5; D6]).
  vm_compute. reflexivity.
Defined.

Import Py Effects Ingest IngestFacts Samples.

(** C1.  A profile's result is accepted exactly when the analyzer returns
    at least one document whose type is the profile's model id and whose
    confidence exceeds 0.95; an [HttpResponseError] of a profile is a
    rejection, not a failure; the profiles are tried in the order emitidas,
    recibidas, and the second is not called once the first is accepted. *)
Theorem classifier_first_confident_profile :
  (forall E m b tr docs,
     analyze E m b = AnalyzeOk docs ->
     ((exists d ds, docs = Some (d :: ds) /\ doc_type d = m
                    /\ (95 # 100 < confidence d)%Q) ->
      fst (analyze_with_model E m b tr) = inr docs) /\
     (~ (exists d ds, docs = Some (d :: ds) /\ doc_type d = m
                      /\ (95 # 100 < confidence d)%Q) ->
      fst (analyze_with_model E m b tr) = inr None)) /\
  (forall E m b tr e,
     analyze E m b = AnalyzeRaises e -> exn_kind e = HttpResponseError ->
     fst (analyze_with_model E m b tr) = inr None) /\
  (forall E b tr r,
     fst (analyze_with_model E MODELO_EMITIDAS b tr) = inr (Some r) ->
     classify E b tr = (inr (Some r, Some "ingreso"), (tr ++ [EvAnalyze MODELO_EMITIDAS])%list)) /\
  (forall E b tr r,
     fst (analyze_with_model E MODELO_EMITIDAS b tr) = inr None ->
     fst (analyze_with_model E MODELO_RECIBIDAS b (tr ++ [EvAnalyze MODELO_EMITIDAS])%list)
       = inr (Some r) ->
     classify E b tr =
     (inr (Some r, Some "egreso"),
      (tr ++ [EvAnalyze MODELO_EMITIDAS; EvAnalyze MODELO_RECIBIDAS])%list)) /\
  (forall E b tr,
     fst (analyze_with_model E MODELO_EMITIDAS b tr) = inr None ->
     fst (analyze_with_model E MODELO_RECIBIDAS b (tr ++ [EvAnalyze MODELO_EMITIDAS])%list)
       = inr None ->
     classify E b tr =
     (inr (None, None), (tr ++ [EvAnalyze MODELO_EMITIDAS; EvAnalyze MODELO_RECIBIDAS])%list)).
Proof.
  split; [|split; [|split; [|split]]].
  - intros E m b tr docs Hd. rewrite analyze_with_model_result, Hd.
    split.
    + intros (d & ds & -> & Ht & Hc).
      rewrite Ht, String.eqb_refl.
      assert (Hle : Qle_bool (confidence d) confidence_threshold = false).
      { destruct (Qle_bool _ _) eqn:Hq; [|reflexivity].
        apply Qle_bool_iff in Hq. unfold confidence_threshold in Hq.
        exfalso. apply (Qlt_not_le _ _ Hc Hq). }
      now rewrite Hle.
    + intros Hn. destruct docs as [[|d ds]|]; try reflexivity.
      destruct (String.eqb (doc_type d) m) eqn:Ht; [|reflexivity].
      destruct (Qle_bool (confidence d) confidence_threshold) eqn:Hq; [reflexivity|].
      exfalso. apply Hn. exists d, ds. split; [reflexivity|]. split.
      * now apply String.eqb_eq.
      * apply Qnot_le_lt. intros Hle. apply Qle_bool_iff in Hle.
        unfold confidence_threshold in Hq. congruence.
  - intros E m b tr e Hd Hk. rewrite analyze_with_model_result, Hd, Hk.
    reflexivity.
  - intros E b tr r H1. rewrite classify_eq, H1. reflexivity.
  - intros E b tr r H1 H2. rewrite classify_eq, H1, H2. reflexivity.
  - intros E b tr H1 H2. rewrite classify_eq, H1, H2. reflexivity.
Qed.

(** C1 at a concrete document: emitidas is rejected with an HTTP error,
    recibidas accepts with confidence 0.99. *)
Lemma classifier_first_confident_profile_witness :
  classify (sample_env (Some 0) rejected_by_http accepted_recibidas upload_ok)
           sample_bytes [] =
  (inr (Some [sample_doc MODELO_RECIBIDAS (99 # 100)], Some "egreso"),
   [EvAnalyze MODELO_EMITIDAS; EvAnalyze MODELO_RECIBIDAS]).
Proof.
  destruct classifier_first_confident_profile as (_ & Hhttp & _ & Hsecond & _).
  apply Hsecond.
  - apply (Hhttp _ _ _ _ (mk_exn HttpResponseError "(ModelNotFound)")); reflexivity.
  - reflexivity.
Defined.

(** C3.  When the fingerprint of the file already matches a record (the
    index answers a positive count whenever it answers), the run returns
    the [duplicate] outcome after the duplicate query alone: the analyzer
    is never called and nothing is uploaded. *)
Theorem duplicate_never_analyzed E path partner b :
  read_file E path = inr b ->
  (forall n rs, search E (dup_filter (sha256_hexdigest E b)) = SearchOk n rs -> 0 < n) ->
  process_and_upload_invoice E path partner [] =
  (inr duplicate_result, [EvSearch (dup_filter (sha256_hexdigest E b))]) /\
  dict_get duplicate_result "error" = Some (VStr "duplicate").
Proof.
  intros Hr Hn. split; [|reflexivity].
  apply process_duplicate; [exact Hr|].
  destruct (search E _) as [n rs|e] eqn:Hs; [|reflexivity].
  apply Nat.ltb_lt. exact (Hn n rs eq_refl).
Qed.

Lemma duplicate_never_analyzed_witness :
  process_and_upload_invoice
    (sample_env (Some 1) accepted_emitidas accepted_recibidas upload_ok)
    "/tmp/factura.pdf" "JONI" [] =
  (inr duplicate_result, [EvSearch (dup_filter sample_hash)]) /\
  dict_get duplicate_result "error" = Some (VStr "duplicate").
Proof.
  apply (duplicate_never_analyzed
           (sample_env (Some 1) accepted_emitidas accepted_recibidas upload_ok)
           "/tmp/factura.pdf" "JONI" sample_bytes).
  - reflexivity.
  - intros n rs H. injection H as <- _. lia.
Defined.

(** C4.  When the duplicate query raises, [_is_duplicate] returns [True]
    and the run stops with the [duplicate] outcome. *)
Theorem duplicate_check_fails_closed E h e :
  search E (dup_filter h) = SearchRaises e ->
  (forall tr, is_duplicate E h tr = (inr true, (tr ++ [EvSearch (dup_filter h)])%list)) /\
  (forall path partner b, read_file E path = inr b -> sha256_hexdigest E b = h ->
     process_and_upload_invoice E path partner [] =
     (inr duplicate_result, [EvSearch (dup_filter h)])).
Proof.
  intros He. split.
  - intros tr. rewrite is_duplicate_eq, He. reflexivity.
  - intros path partner b Hr Hh. subst h.
    apply process_duplicate; [exact Hr|]. now rewrite He.
Qed.

Lemma duplicate_check_fails_closed_witness :
  is_duplicate (sample_env None accepted_emitidas accepted_recibidas upload_ok)
    sample_hash [] = (inr true, [EvSearch (dup_filter sample_hash)]).
Proof.
  apply (proj1 (duplicate_check_fails_closed
                  (sample_env None accepted_emitidas accepted_recibidas upload_ok)
                  sample_hash (mk_exn OtherError "ServiceRequestError") eq_refl) []).
Defined.

(** C9.  Every record the run uploads has exactly one [InvoiceType] entry,
    which is ["ingreso"] or ["egreso"], and exactly one [file_hash] entry,
    the SHA-256 digest string of the file's bytes (never [None]). *)
Theorem uploaded_record_tagged E path partner docs :
  In (EvUpload docs) (snd (process_and_upload_invoice E path partner [])) ->
  exists b, read_file E path = inr b /\
  Forall (fun d =>
            key_count d "InvoiceType" = 1 /\
            (dict_get d "InvoiceType" = Some (VStr "ingreso") \/
             dict_get d "InvoiceType" = Some (VStr "egreso")) /\
            key_count d "file_hash" = 1 /\
            dict_get d "file_hash" = Some (VStr (sha256_hexdigest E b))) docs.
Proof.
  rewrite process_eq. destruct (read_file E path) as [e|b]; simpl; [contradiction|].
  intros Hin. exists b. split; [reflexivity|].
  destruct (match search E _ with SearchOk n _ => _ | SearchRaises _ => _ end);
    [destruct Hin as [Hin|Hin]; [discriminate|contradiction]|].
  pose proof (classify_no_upload E b (dup_filter (sha256_hexdigest E b)) docs) as Hno.
  destruct (classify_shape E b [EvSearch (dup_filter (sha256_hexdigest E b))])
    as [_ Htype].
  destruct (classify E b _) as [[e|[[r|] [t|]]] tr2]; simpl in Hno, Htype, Hin;
    try contradiction.
  specialize (Htype r t eq_refl).
  destruct (upload E _); simpl in Hin;
    (apply in_app_or in Hin as [Hin|[Hin|[]]]; [contradiction|]);
    injection Hin as <-; constructor; auto; simpl;
    (split; [reflexivity|split; [destruct Htype as [->| ->]; auto|split; reflexivity]]).
Qed.

Lemma uploaded_record_tagged_witness :
  exists b,
    read_file (sample_env (Some 0) accepted_emitidas accepted_recibidas upload_ok)
      "/tmp/factura.pdf" = inr b /\
    Forall (fun d =>
              key_count d "InvoiceType" = 1 /\
              (dict_get d "InvoiceType" = Some (VStr "ingreso") \/
               dict_get d "InvoiceType" = Some (VStr "egreso")) /\
              key_count d "file_hash" = 1 /\
              dict_get d "file_hash" = Some (VStr sample_hash))
      [create_structured_document
         (sample_env (Some 0) accepted_emitidas accepted_recibidas upload_ok)
         (extract_invoice_fields [sample_doc MODELO_EMITIDAS (97 # 100)])
         "/tmp/factura.pdf" "ingreso" "JONI" sample_hash].
Proof.
  apply (uploaded_record_tagged
           (sample_env (Some 0) accepted_emitidas accepted_recibidas upload_ok)
           "/tmp/factura.pdf" "JONI").
  vm_compute. right. right. left. reflexivity.
Defined.

(** C2 (counterexample).  When both profiles reject the document the
    [error] entry is the text of the [ValueError], not the discriminator
    ["classification_failed"], and there is no [message] entry; when the
    index answers the upload with [succeeded = False] the outcome has no
    [error] entry at all. *)
Lemma ingest_failure_no_discriminator :
  let r1 := fst (process_and_upload_invoice
                   (sample_env (Some 0) rejected_by_http low_confidence_recibidas upload_ok)
                   "/tmp/factura.pdf" "JONI" []) in
  let r2 := fst (process_and_upload_invoice
                   (sample_env (Some 0) accepted_emitidas accepted_recibidas upload_rejected)
                   "/tmp/factura.pdf" "JONI" []) in
  r1 = inr [("success", VBool false); ("error", VStr no_model_msg)] /\
  no_model_msg <> "classification_failed" /\
  (exists d, r2 = inr d /\ dict_get d "success" = Some (VBool false) /\
             dict_get d "error" = None /\ dict_get d "message" = None).
Proof.
  cbv zeta. split; [reflexivity|]. split; [discriminate|].
  eexists. split; [reflexivity|]. repeat split; reflexivity.
Qed.

(** C2 (as amended).  Every ingestion run returns a dict and never raises;
    it stops in one of six ways.  A read error [e] gives
    [{success: False, error: str(e)}] with no service called.  A detected
    duplicate gives [{success: False, error: "duplicate", message}] after
    the single duplicate query: nothing is analyzed or uploaded.  An
    unexpected analyzer error [e] (not an [HttpResponseError]) gives
    [{success: False, error: str(e)}] after the query and the analyses up
    to the one that raised.  When no profile accepts, the error is the
    [ValueError] text, after the query and the two analyses.  Otherwise the
    accepted document is uploaded by a single call, the last one of the
    run: if it raises [e], the outcome is [{success: False, error: str(e)}];
    if it returns, [{success, invoice_data, invoice_type}], where [success]
    is the [succeeded] flag of the first indexing result ([False] when there
    is none).  Only the duplicate outcome carries a discriminator and a
    message. *)
Theorem ingest_outcomes_amended E path partner :
  match read_file E path with
  | inl e =>
      process_and_upload_invoice E path partner [] =
      (inr [("success", VBool false); ("error", VStr (exn_msg e))], [])
  | inr b =>
      let h := sha256_hexdigest E b in
      if match search E (dup_filter h) with
         | SearchOk n _ => 0 <? n
         | SearchRaises _ => true
         end
      then process_and_upload_invoice E path partner [] =
           (inr duplicate_result, [EvSearch (dup_filter h)])
      else
        (exists e,
            exn_kind e <> HttpResponseError /\
            fst (process_and_upload_invoice E path partner []) =
            inr [("success", VBool false); ("error", VStr (exn_msg e))] /\
            ((analyze E MODELO_EMITIDAS b = AnalyzeRaises e /\
              snd (process_and_upload_invoice E path partner []) =
              [EvSearch (dup_filter h); EvAnalyze MODELO_EMITIDAS]) \/
             (fst (analyze_with_model E MODELO_EMITIDAS b []) = inr None /\
              analyze E MODELO_RECIBIDAS b = AnalyzeRaises e /\
              snd (process_and_upload_invoice E path partner []) =
              [EvSearch (dup_filter h); EvAnalyze MODELO_EMITIDAS;
               EvAnalyze MODELO_RECIBIDAS]))) \/
        (fst (analyze_with_model E MODELO_EMITIDAS b []) = inr None /\
         fst (analyze_with_model E MODELO_RECIBIDAS b []) = inr None /\
         process_and_upload_invoice E path partner [] =
         (inr [("success", VBool false); ("error", VStr no_model_msg)],
          [EvSearch (dup_filter h); EvAnalyze MODELO_EMITIDAS;
           EvAnalyze MODELO_RECIBIDAS])) \/
        (exists r t pre,
            ((t = "ingreso" /\ fst (analyze_with_model E MODELO_EMITIDAS b []) = inr (Some r) /\
              pre = [EvSearch (dup_filter h); EvAnalyze MODELO_EMITIDAS]) \/
             (t = "egreso" /\ fst (analyze_with_model E MODELO_EMITIDAS b []) = inr None /\
              fst (analyze_with_model E MODELO_RECIBIDAS b []) = inr (Some r) /\
              pre = [EvSearch (dup_filter h); EvAnalyze MODELO_EMITIDAS;
                     EvAnalyze MODELO_RECIBIDAS])) /\
            let doc := create_structured_document E (extract_invoice_fields r)
                         path t partner h in
            snd (process_and_upload_invoice E path partner []) =
            (pre ++ [EvUpload [doc]])%list /\
            fst (process_and_upload_invoice E path partner []) =
            inr match upload E [doc] with
                | UploadOk rs =>
                    [("success", VBool match rs with
                                       | x :: _ => succeeded x
                                       | [] => false
                                       end);
                     ("invoice_data", VDict (extract_invoice_fields r));
                     ("invoice_type", VStr t)]
                | UploadRaises e => [("success", VBool false); ("error", VStr (exn_msg e))]
                end)
  end.
Proof. exact (process_outcomes E path partner). Qed.

Import PyStr Agent AgentFacts.

(** C6.  A router answer that, once stripped, is none of the three labels
    [busqueda_simple], [calculo_balance], [resumen_general] takes the
    [unsupported] path: the run returns normally with the fixed guidance
    message, and the chat model is called only once, by the router. *)
Theorem unsupported_label_fixed_message A q raw :
  llm A (RouterPrompt q) = inr raw ->
  strip raw <> "busqueda_simple" ->
  strip raw <> "calculo_balance" ->
  strip raw <> "resumen_general" ->
  decide_path (set_task_type (initial_state q) (strip raw)) = PathUnsupported /\
  run A q [] =
  (inr (set_final_answer (set_task_type (initial_state q) (strip raw))
                         unsupported_answer),
   [EvLLM (RouterPrompt q)]).
Proof.
  intros Hl H1 H2 H3.
  assert (Hp : decide_path (set_task_type (initial_state q) (strip raw))
               = PathUnsupported).
  { unfold decide_path, is_balance_task. simpl.
    apply String.eqb_neq in H1, H2, H3. now rewrite H1, H2, H3. }
  split; [exact Hp|].
  unfold run, route_question_node, llm_call, bind, emit. simpl. rewrite Hl.
  unfold ret. cbv zeta. now rewrite Hp.
Qed.

Lemma unsupported_label_fixed_message_witness :
  run (sample_agent (inr "  pregunta_rara ")) "hola" [] =
  (inr (set_final_answer (set_task_type (initial_state "hola") "pregunta_rara")
                         unsupported_answer),
   [EvLLM (RouterPrompt "hola")]).
Proof.
  apply (proj2 (unsupported_label_fixed_message
                  (sample_agent (inr "  pregunta_rara ")) "hola" "  pregunta_rara "
                  eq_refl ltac:(discriminate) ltac:(discriminate) ltac:(discriminate))).
Defined.

(** C7.  For a balance task ([calculo_balance] or [resumen_general]) the
    answer node returns the balance text without calling any service; the
    text contains both totals and, as the balance, income minus expense,
    each formatted with [,.2f]; for 1000.0 and 400.0 these are
    ["1,000.00"], ["400.00"] and ["600.00"]. *)
Theorem balance_answer_reports_difference A st t tr :
  task_type st = Some t ->
  is_balance_task t = true ->
  generate_answer_node A st tr =
  (inr (balance_answer (income_total st) (expense_total st)), tr) /\
  contains ("- Total de Ingresos: $" ++ format_comma_2f (income_total st))
           (balance_answer (income_total st) (expense_total st)) = true /\
  contains ("- Total de Egresos: $" ++ format_comma_2f (expense_total st))
           (balance_answer (income_total st) (expense_total st)) = true /\
  contains ("**Balance General: $"
            ++ format_comma_2f (income_total st - expense_total st)%Q ++ "**")
           (balance_answer (income_total st) (expense_total st)) = true /\
  (format_comma_2f 1000 = "1,000.00" /\ format_comma_2f 400 = "400.00" /\
   format_comma_2f (1000 - 400)%Q = "600.00" /\
   contains "600.00" (balance_answer 1000 400) = true /\
   contains "1,000.00" (balance_answer 1000 400) = true /\
   contains "400.00" (balance_answer 1000 400) = true).
Proof.
  intros Ht Hb. split.
  { unfold generate_answer_node. rewrite Ht, Hb. reflexivity. }
  unfold balance_answer. cbv zeta.
  split; [|split; [|split]].
  - do 2 apply contains_app_r.
    rewrite <- (str_app_assoc "- Total de Ingresos: $"). apply contains_prefix.
  - do 5 apply contains_app_r.
    rewrite <- (str_app_assoc "- Total de Egresos: $"). apply contains_prefix.
  - do 10 apply contains_app_r. apply contains_refl.
  - vm_compute. repeat split; reflexivity.
Qed.

Lemma balance_answer_reports_difference_witness :
  generate_answer_node (sample_agent (inr "calculo_balance"))
    (mk_state "balance?" (Some "calculo_balance") None [] 1000 400 None) [] =
  (inr (balance_answer 1000 400), []) /\
  contains ("**Balance General: $" ++ format_comma_2f (1000 - 400)%Q ++ "**")
           (balance_answer 1000 400) = true.
Proof.
  destruct (balance_answer_reports_difference (sample_agent (inr "calculo_balance"))
              (mk_state "balance?" (Some "calculo_balance") None [] 1000 400 None)
              "calculo_balance" [] eq_refl eq_refl) as (H1 & _ & _ & H4 & _).
  split; [exact H1|exact H4].
Defined.




Module ExtraFacts.

Import PyStr Py Effects Ingest Agent Api IngestFacts AgentFacts.

(** [_sum_totals] calls no service: it leaves the trace as it is. *)
Lemma sum_totals_from_eq A t rs tr :
  sum_totals_from A t rs tr = (fst (sum_totals_from A t rs []), tr).
Proof.
  revert t. induction rs as [|r rs IH]; intros t; [reflexivity|].
  cbn [sum_totals_from].
  destruct (dict_get_default r "content" (VStr "{}")); try apply IH.
  destruct (json_loads A s) as [[]|]; try apply IH; try reflexivity.
  destruct (add_total t _); apply IH.
Qed.

Lemma query_invoices_eq E f tr :
  query_invoices E f tr =
  (inr match search E f with
       | SearchOk _ rs => rs
       | SearchRaises _ => []
       end, (tr ++ [EvSearch f])%list).
Proof.
  unfold query_invoices, try_catch, bind, search_call, emit, ret, raise.
  destruct (search E f); reflexivity.
Qed.

Lemma llm_call_eq A p tr :
  llm_call A p tr =
  (match llm A p with inl e => inl e | inr c => inr c end, (tr ++ [EvLLM p])%list).
Proof.
  unfold llm_call, bind, emit, ret, raise. destruct (llm A p); reflexivity.
Qed.

Lemma bind_ok {X Y} (m : M X) (k : X -> M Y) tr x tr1 :
  m tr = (inr x, tr1) -> bind m k tr = k x tr1.
Proof. intros H. unfold bind. now rewrite H. Qed.

Lemma bind_err {X Y} (m : M X) (k : X -> M Y) tr e tr1 :
  m tr = (inl e, tr1) -> bind m k tr = (inl e, tr1).
Proof. intros H. unfold bind. now rewrite H. Qed.

Lemma route_eq A st tr r :
  llm A (RouterPrompt (question st)) = inr r ->
  route_question_node A st tr = (inr (strip r), (tr ++ [EvLLM (RouterPrompt (question st))])%list).
Proof.
  intros H. unfold route_question_node.
  rewrite (bind_ok _ _ tr r (tr ++ [EvLLM (RouterPrompt (question st))])%list); [reflexivity|].
  now rewrite llm_call_eq, H.
Qed.

Lemma filter_eq A st tr f :
  llm A (FilterPrompt (question st)) = inr f ->
  generate_filter_node A st tr = (inr (strip f), (tr ++ [EvLLM (FilterPrompt (question st))])%list).
Proof.
  intros H. unfold generate_filter_node.
  rewrite (bind_ok _ _ tr f (tr ++ [EvLLM (FilterPrompt (question st))])%list); [reflexivity|].
  now rewrite llm_call_eq, H.
Qed.

Lemma decide_simple st : decide_path (set_task_type st "busqueda_simple") = PathSimple.
Proof. reflexivity. Qed.

Lemma decide_balance st t :
  is_balance_task t = true -> decide_path (set_task_type st t) = PathBalance.
Proof.
  intros H. unfold decide_path. simpl. rewrite H.
  destruct (String.eqb t "busqueda_simple") eqn:E; [|reflexivity].
  apply String.eqb_eq in E. subst t. discriminate.
Qed.

(** The simple path after the router and the filter node. *)
Lemma run_simple_eq A q r f :
  llm A (RouterPrompt q) = inr r -> strip r = "busqueda_simple" ->
  llm A (FilterPrompt q) = inr f ->
  run A q [] =
  (let st2 := set_filter_query (set_task_type (initial_state q) "busqueda_simple") (strip f) in
   rs <- execute_search_node A st2 ;;
   a <- generate_answer_node A (set_search_results st2 rs) ;;
   ret (set_final_answer (set_search_results st2 rs) a))
    [EvLLM (RouterPrompt q); EvLLM (FilterPrompt q)].
Proof.
  intros Hr Hs Hf. unfold run. cbv zeta.
  rewrite (bind_ok _ _ _ _ _ (route_eq A (initial_state q) [] r Hr)).
  rewrite Hs, decide_simple.
  rewrite (bind_ok _ _ _ _ _ (filter_eq A (set_task_type (initial_state q) "busqueda_simple") _ f Hf)).
  reflexivity.
Qed.

(** The balance path after the router. *)
Lemma run_balance_eq A q r :
  llm A (RouterPrompt q) = inr r -> is_balance_task (strip r) = true ->
  run A q [] =
  (let st1 := set_task_type (initial_state q) (strip r) in
   i <- search_income_node A ;;
   e <- search_expense_node A ;;
   a <- generate_answer_node A (set_expense_total (set_income_total st1 i) e) ;;
   ret (set_final_answer (set_expense_total (set_income_total st1 i) e) a))
    [EvLLM (RouterPrompt q)].
Proof.
  intros Hr Hb. unfold run. cbv zeta.
  rewrite (bind_ok _ _ _ _ _ (route_eq A (initial_state q) [] r Hr)).
  rewrite (decide_balance _ _ Hb). reflexivity.
Qed.

Lemma search_node_eq A filter rs t tr :
  fst (query_invoices (index A) filter []) = inr rs ->
  fst (sum_totals A rs []) = inr t ->
  (search_results <- query_invoices (index A) filter ;; sum_totals A search_results) tr
  = (inr t, (tr ++ [EvSearch filter])%list).
Proof.
  intros Hq Hs. rewrite query_invoices_eq in Hq. simpl in Hq. injection Hq as Hq.
  rewrite (bind_ok _ _ tr rs (tr ++ [EvSearch filter])%list).
  - unfold sum_totals in *. rewrite sum_totals_from_eq, Hs. reflexivity.
  - rewrite query_invoices_eq, Hq. reflexivity.
Qed.

(** [process_and_upload_invoice] never raises. *)
Lemma process_total E path partner tr :
  exists r tr', process_and_upload_invoice E path partner tr = (inr r, tr').
Proof.
  rewrite process_eq.
  destruct (read_file E path) as [e|b]; [eauto|]. cbv zeta.
  destruct (match search E _ with SearchOk n _ => _ | SearchRaises _ => _ end);
    [eauto|].
  destruct (classify E b _) as [[e|[[r|] [t|]]] tr2]; eauto.
  destruct (upload E _); eauto.
Qed.

(** A profile accepts only through the first document of the analysis,
    whose type is the model id and whose confidence exceeds 0.95. *)
Lemma analyze_with_model_some E m b tr r :
  fst (analyze_with_model E m b tr) = inr (Some r) ->
  exists d ds, r = d :: ds /\ analyze E m b = AnalyzeOk (Some (d :: ds)) /\
               doc_type d = m /\ (95 # 100 < confidence d)%Q.
Proof.
  rewrite analyze_with_model_result.
  destruct (analyze E m b) as [[[|d ds]|]|e]; intros H; try discriminate.
  - exists d, ds.
    destruct (String.eqb (doc_type d) m) eqn:Ht; [|discriminate].
    destruct (Qle_bool (confidence d) confidence_threshold) eqn:Hq; [discriminate|].
    injection H as <-. apply String.eqb_eq in Ht.
    split; [reflexivity|split; [reflexivity|split; [exact Ht|]]].
    apply Qnot_le_lt. intros Hle. apply Qle_bool_iff in Hle.
    unfold confidence_threshold in Hq. congruence.
  - destruct (exn_kind e); discriminate.
Qed.

(** An accepted classification comes from the first model that accepted
    the file. *)
Lemma classify_accepts E b tr r t :
  fst (classify E b tr) = inr (Some r, Some t) ->
  exists m d ds, r = d :: ds /\ analyze E m b = AnalyzeOk (Some (d :: ds)) /\
                 doc_type d = m /\ (95 # 100 < confidence d)%Q /\
                 ((m = MODELO_EMITIDAS /\ t = "ingreso") \/
                  (m = MODELO_RECIBIDAS /\ t = "egreso")).
Proof.
  rewrite classify_eq.
  destruct (fst (analyze_with_model E MODELO_EMITIDAS b tr)) as [e|[r1|]] eqn:H1;
    simpl; intros H; [discriminate| |].
  - injection H as -> <-.
    destruct (analyze_with_model_some E _ b tr r H1) as (d & ds & Hr & Ha & Ht & Hc).
    exists MODELO_EMITIDAS, d, ds.
    split; [exact Hr|split; [exact Ha|split; [exact Ht|split; [exact Hc|]]]].
    left. split; reflexivity.
  - destruct (fst (analyze_with_model E MODELO_RECIBIDAS b _)) as [e|[r2|]] eqn:H2;
      simpl in H; try discriminate.
    injection H as -> <-.
    destruct (analyze_with_model_some E _ b _ r H2) as (d & ds & Hr & Ha & Ht & Hc).
    exists MODELO_RECIBIDAS, d, ds.
    split; [exact Hr|split; [exact Ha|split; [exact Ht|split; [exact Hc|]]]].
    right. split; reflexivity.
Qed.

(** What a run uploads: the record built from the accepted analysis. *)
Lemma process_upload_shape E path partner docs :
  In (EvUpload docs) (snd (process_and_upload_invoice E path partner [])) ->
  exists b r t, read_file E path = inr b /\
    fst (classify E b [EvSearch (dup_filter (sha256_hexdigest E b))]) = inr (Some r, Some t) /\
    docs = [create_structured_document E (extract_invoice_fields r) path t partner
              (sha256_hexdigest E b)].
Proof.
  rewrite process_eq. destruct (read_file E path) as [e|b]; simpl; [contradiction|].
  intros Hin.
  destruct (match search E _ with SearchOk n _ => _ | SearchRaises _ => _ end);
    [destruct Hin as [Hin|Hin]; [discriminate|contradiction]|].
  pose proof (classify_no_upload E b (dup_filter (sha256_hexdigest E b)) docs) as Hno.
  destruct (classify E b _) as [[e|[[r|] [t|]]] tr2] eqn:Hc; simpl in Hno, Hin;
    try contradiction.
  exists b, r, t. split; [reflexivity|]. split; [now rewrite Hc|].
  destruct (upload E _); simpl in Hin;
    (apply in_app_or in Hin as [Hin|[Hin|[]]]; [contradiction|]);
    now injection Hin as <-.
Qed.

(** [/process-invoice/] once the upload is saved: the processing result,
    rendered or not, then the [finally] clause. *)
Lemma process_invoice_saved E F p tr path :
  save_temp F = inr path ->
  exists r tr',
    process_and_upload_invoice E path (partner_value p) tr = (inr r, tr') /\
    process_invoice E F p tr =
    match remove_temp F path with
    | Some e => (inl e, tr')
    | None =>
        (inr match render_error (response_data r (filename F)) with
             | None => InvoiceJSON (dict_get_default r "success" (VBool false))
                                   "Procesamiento de factura completado" (filename F) r
             | Some e => InvoiceHTTPError 500 (server_error e)
             end, tr')
    end.
Proof.
  intros Hs. unfold process_invoice. rewrite Hs.
  destruct (process_total E path (partner_value p) tr) as (r & tr' & H).
  exists r, tr'. split; [exact H|].
  unfold bind at 1, try_catch. rewrite (bind_ok _ _ _ _ _ H).
  destruct (render_error (response_data r (filename F))); cbn;
    unfold bind, remove_call, raise, ret; destruct (remove_temp F path); reflexivity.
Qed.

Lemma process_invoice_trace E F p tr :
  snd (process_invoice E F p tr) =
  match save_temp F with
  | inl _ => tr
  | inr path => snd (process_and_upload_invoice E path (partner_value p) tr)
  end.
Proof.
  destruct (save_temp F) as [e|path] eqn:Hs.
  - unfold process_invoice. rewrite Hs. reflexivity.
  - destruct (process_invoice_saved E F p tr path Hs) as (r & tr' & H & ->).
    rewrite H. destruct (remove_temp F path); reflexivity.
Qed.

(** An [inf] or a [nan] in the processing result makes the rendering raise
    [ValueError]. *)
Lemma render_non_finite r fn :
  finite_floats (VDict r) = false ->
  render_error (response_data r fn) =
  Some (mk_exn ValueError "Out of range float values are not JSON compliant").
Proof.
  intros Hf. unfold render_error.
  change (finite_floats (response_data r fn)) with
    (finite_floats (dict_get_default r "success" (VBool false))
     && (true && (true && (finite_floats (VDict r) && true)))).
  rewrite Hf. simpl. now rewrite andb_false_r.
Qed.

End ExtraFacts.

(** * Further properties of the code *)

Import Api ExtraFacts ExtraSamples.



(** A result that [_sum_totals] skips leaves the total as it is: one with
    a non-string [content], one whose [content] does not decode, and one
    whose [InvoiceTotal] is present but not a number (the [TypeError]). *)
Theorem sum_totals_skips_unreadable A rs1 r rs2 tr :
  ((forall s, dict_get_default r "content" (VStr "{}") <> VStr s) \/
   (exists s, dict_get_default r "content" (VStr "{}") = VStr s /\ json_loads A s = None) \/
   (exists s kvs v, dict_get_default r "content" (VStr "{}") = VStr s /\
                    json_loads A s = Some (JObj kvs) /\
                    json_get kvs "InvoiceTotal" = Some v /\
                    forall t, add_total t v = None)) ->
  sum_totals A (rs1 ++ r :: rs2) tr = sum_totals A (rs1 ++ rs2) tr.
Proof.
  intros Hr. unfold sum_totals. generalize 0%Q as t.
  induction rs1 as [|r1 rs1 IH]; intros t.
  - cbn [app sum_totals_from].
    destruct Hr as [Hr|[(s & Hc & Hj)|(s & kvs & v & Hc & Hj & Hv & Ha)]].
    + destruct (dict_get_default r "content" (VStr "{}")); try reflexivity.
      exfalso. exact (Hr s eq_refl).
    + now rewrite Hc, Hj.
    + now rewrite Hc, Hj, Hv, Ha.
  - cbn [app sum_totals_from].
    destruct (dict_get_default r1 "content" (VStr "{}")); try apply IH.
    destruct (json_loads A s) as [[]|]; try apply IH; try reflexivity.
    destruct (add_total t _); apply IH.
Qed.

Lemma sum_totals_skips_unreadable_witness :
  sum_totals (ledger_agent "calculo_balance" "NO_FILTER")
    ([rec_income] ++ rec_garbled :: [rec_expense]) [] =
  sum_totals (ledger_agent "calculo_balance" "NO_FILTER") ([rec_income] ++ [rec_expense]) [].
Proof.
  apply sum_totals_skips_unreadable. right. left. eexists. split; reflexivity.
Defined.

(** A result whose [content] decodes to a JSON value that is not an
    object (a number, a string, an array) makes [_sum_totals] raise: the
    [AttributeError] of [.get] is not among the exceptions it skips. *)
Theorem sum_totals_non_object_raises A rs tr :
  (exists r s v, In r rs /\ dict_get_default r "content" (VStr "{}") = VStr s /\
                 json_loads A s = Some v /\ forall kvs, v <> JObj kvs) ->
  exists e, fst (sum_totals A rs tr) = inl e.
Proof.
  intros (r & s & v & Hin & Hc & Hj & Hv). unfold sum_totals. generalize 0%Q as t.
  induction rs as [|r1 rs IH]; intros t; [destruct Hin|].
  cbn [sum_totals_from]. destruct Hin as [<-|Hin].
  - rewrite Hc, Hj. destruct v; try (eexists; reflexivity).
    exfalso. exact (Hv kvs eq_refl).
  - destruct (dict_get_default r1 "content" (VStr "{}")); try (now apply IH).
    destruct (json_loads A s0) as [[]|]; try (now apply IH); try (eexists; reflexivity).
    match goal with |- context [add_total ?a ?b] => destruct (add_total a b) end;
      now apply IH.
Qed.

Lemma sum_totals_non_object_raises_witness :
  exists e, fst (sum_totals (ledger_agent "calculo_balance" "NO_FILTER")
                   [rec_income; rec_array; rec_expense] []) = inl e.
Proof.
  apply sum_totals_non_object_raises.
  exists rec_array, "d", (JArr []). split; [simpl; auto|].
  split; [reflexivity|]. split; [reflexivity|]. discriminate.
Defined.

(** On the simple-search path, a filter answer that strips to
    ["NO_FILTER"] or to the empty string skips the search: the index is
    never queried, the chat model is not asked to compose an answer, and
    the answer is the fixed "no information" message. *)
Theorem simple_path_no_filter_no_search A q r f :
  llm A (RouterPrompt q) = inr r -> strip r = "busqueda_simple" ->
  llm A (FilterPrompt q) = inr f ->
  strip f = "NO_FILTER" \/ strip f = "" ->
  exists st, run A q [] = (inr st, [EvLLM (RouterPrompt q); EvLLM (FilterPrompt q)]) /\
             final_answer st = Some no_info_answer.
Proof.
  intros Hr Hs Hf Hn. rewrite (run_simple_eq A q r f Hr Hs Hf). cbv zeta.
  destruct Hn as [Hn|Hn]; rewrite Hn; eexists; split; reflexivity.
Qed.

Lemma simple_path_no_filter_no_search_witness :
  exists st, run (ledger_agent "busqueda_simple" " NO_FILTER") "facturas?" [] =
             (inr st, [EvLLM (RouterPrompt "facturas?"); EvLLM (FilterPrompt "facturas?")]) /\
             final_answer st = Some no_info_answer.
Proof.
  apply (simple_path_no_filter_no_search _ _ "busqueda_simple" " NO_FILTER");
    [reflexivity|reflexivity|reflexivity|left; reflexivity].
Defined.

(** On the simple-search path, a search that raises or finds no record
    gives the fixed "no information" message after the single query: the
    chat model is not asked to compose an answer, and the failure is not
    reported as an error. *)
Theorem simple_path_empty_search_no_info A q r f :
  llm A (RouterPrompt q) = inr r -> strip r = "busqueda_simple" ->
  llm A (FilterPrompt q) = inr f ->
  strip f <> "" -> strip f <> "NO_FILTER" ->
  ((exists e, search (index A) (strip f) = SearchRaises e) \/
   (exists n, search (index A) (strip f) = SearchOk n [])) ->
  exists st, run A q [] =
             (inr st, [EvLLM (RouterPrompt q); EvLLM (FilterPrompt q); EvSearch (strip f)]) /\
             final_answer st = Some no_info_answer.
Proof.
  intros Hr Hs Hf H1 H2 Hq. rewrite (run_simple_eq A q r f Hr Hs Hf). cbv zeta.
  rewrite (bind_ok _ _ _ []
             [EvLLM (RouterPrompt q); EvLLM (FilterPrompt q); EvSearch (strip f)]).
  - eexists. split; reflexivity.
  - unfold execute_search_node. cbn [filter_query set_filter_query].
    apply String.eqb_neq in H1, H2. rewrite H1, H2. simpl.
    rewrite query_invoices_eq.
    destruct Hq as [[e ->]|[n ->]]; reflexivity.
Qed.

Lemma simple_path_empty_search_no_info_witness :
  exists st, run (ledger_agent "busqueda_simple" "PartnerName eq 'LEO'") "leo?" [] =
             (inr st, [EvLLM (RouterPrompt "leo?"); EvLLM (FilterPrompt "leo?");
                       EvSearch "PartnerName eq 'LEO'"]) /\
             final_answer st = Some no_info_answer.
Proof.
  apply (simple_path_empty_search_no_info _ _ "busqueda_simple" "PartnerName eq 'LEO'");
    try reflexivity; try discriminate.
  left. eexists. reflexivity.
Defined.

(** On the simple-search path with a filter, when the query finds records
    the chat model is asked once more, with the question and all the
    records found, and its reply is the answer as it is. *)
Theorem simple_path_answer_from_results A q r f n rs a :
  llm A (RouterPrompt q) = inr r -> strip r = "busqueda_simple" ->
  llm A (FilterPrompt q) = inr f ->
  strip f <> "" -> strip f <> "NO_FILTER" ->
  search (index A) (strip f) = SearchOk n rs -> rs <> [] ->
  llm A (AnswerPrompt q rs) = inr a ->
  exists st, run A q [] =
             (inr st, [EvLLM (RouterPrompt q); EvLLM (FilterPrompt q); EvSearch (strip f);
                       EvLLM (AnswerPrompt q rs)]) /\
             search_results st = rs /\ final_answer st = Some a.
Proof.
  intros Hr Hs Hf H1 H2 Hq Hne Ha. rewrite (run_simple_eq A q r f Hr Hs Hf). cbv zeta.
  rewrite (bind_ok _ _ _ rs
             [EvLLM (RouterPrompt q); EvLLM (FilterPrompt q); EvSearch (strip f)]).
  - rewrite (bind_ok _ _ _ a
               [EvLLM (RouterPrompt q); EvLLM (FilterPrompt q); EvSearch (strip f);
                EvLLM (AnswerPrompt q rs)]).
    + eexists. split; [reflexivity|split; reflexivity].
    + unfold generate_answer_node. simpl.
      destruct rs as [|r0 rs']; [contradiction|].
      rewrite llm_call_eq. simpl. now rewrite Ha.
  - unfold execute_search_node. cbn [filter_query set_filter_query].
    apply String.eqb_neq in H1, H2. rewrite H1, H2. simpl.
    rewrite query_invoices_eq, Hq. reflexivity.
Qed.

Lemma simple_path_answer_from_results_witness :
  exists st, run (ledger_agent "busqueda_simple" "PartnerName eq 'JONI'") "joni?" [] =
             (inr st, [EvLLM (RouterPrompt "joni?"); EvLLM (FilterPrompt "joni?");
                       EvSearch "PartnerName eq 'JONI'";
                       EvLLM (AnswerPrompt "joni?" [rec_expense])]) /\
             search_results st = [rec_expense] /\ final_answer st = Some "Joni gasto $400,00.".
Proof.
  apply (simple_path_answer_from_results _ _ "busqueda_simple" "PartnerName eq 'JONI'" 1);
    try reflexivity; discriminate.
Defined.



(** On the balance path, when both index queries raise, the run still
    answers normally: the failures are swallowed and the balance text
    reports totals of 0. *)
Theorem balance_path_search_failure_zero A q r e1 e2 :
  llm A (RouterPrompt q) = inr r -> is_balance_task (strip r) = true ->
  search (index A) "InvoiceType eq 'ingreso'" = SearchRaises e1 ->
  search (index A) "InvoiceType eq 'egreso'" = SearchRaises e2 ->
  exists st tr, run A q [] = (inr st, tr) /\
                final_answer st = Some (balance_answer 0 0).
Proof.
  intros Hr Hb H1 H2. rewrite (run_balance_eq A q r Hr Hb). cbv zeta.
  unfold search_income_node, search_expense_node.
  assert (Hq1 : fst (query_invoices (index A) "InvoiceType eq 'ingreso'" []) = inr [])
    by (rewrite query_invoices_eq, H1; reflexivity).
  assert (Hq2 : fst (query_invoices (index A) "InvoiceType eq 'egreso'" []) = inr [])
    by (rewrite query_invoices_eq, H2; reflexivity).
  rewrite (bind_ok _ _ _ _ _ (search_node_eq A _ [] 0 _ Hq1 eq_refl)).
  rewrite (bind_ok _ _ _ _ _ (search_node_eq A _ [] 0 _ Hq2 eq_refl)).
  unfold generate_answer_node at 1, bind at 1.
  cbn [task_type set_task_type set_income_total set_expense_total]. rewrite Hb.
  do 2 eexists. split; reflexivity.
Qed.

Lemma balance_path_search_failure_zero_witness :
  exists st tr,
    run (mk_agent_env (fun _ => inr "resumen_general")
           (sample_env None rejected_by_http rejected_by_http upload_ok)
           (fun _ => None)) "resumen" [] = (inr st, tr) /\
    final_answer st = Some (balance_answer 0 0).
Proof.
  apply (balance_path_search_failure_zero _ _ "resumen_general"
           (mk_exn OtherError "ServiceRequestError") (mk_exn OtherError "ServiceRequestError"));
    reflexivity.
Defined.

(** Every record a run uploads comes from a model that accepted the file
    (the first document's type is the model id, its confidence exceeds
    0.95), its [InvoiceType] is that model's tag, and its vendor, date,
    total and tax are the cleaned fields of that first document: ["N/A"]
    for a missing or empty text, 0.0 for a missing amount. *)
Theorem uploaded_record_from_accepted_document E path partner docs :
  In (EvUpload docs) (snd (process_and_upload_invoice E path partner [])) ->
  exists b m d ds rec,
    read_file E path = inr b /\ docs = [rec] /\
    analyze E m b = AnalyzeOk (Some (d :: ds)) /\
    doc_type d = m /\ (95 # 100 < confidence d)%Q /\
    ((m = MODELO_EMITIDAS /\ dict_get rec "InvoiceType" = Some (VStr "ingreso")) \/
     (m = MODELO_RECIBIDAS /\ dict_get rec "InvoiceType" = Some (VStr "egreso"))) /\
    dict_get rec "VendorName" = Some (VStr (text_or_na (get_field_value (fields d) "VendorName"))) /\
    dict_get rec "InvoiceDate" = Some (VStr (text_or_na (get_field_value (fields d) "InvoiceDate"))) /\
    dict_get rec "InvoiceTotal" = Some (VFloat (clean_currency (get_field_value (fields d) "InvoiceTotal"))) /\
    dict_get rec "TotalTax" = Some (VFloat (clean_currency (get_field_value (fields d) "TotalTax"))).
Proof.
  intros Hin.
  destruct (process_upload_shape E path partner docs Hin) as (b & r & t & Hb & Hc & ->).
  destruct (classify_accepts E b _ r t Hc) as (m & d & ds & -> & Ha & Ht & Hconf & Hm).
  exists b, m, d, ds. eexists.
  split; [exact Hb|]. split; [reflexivity|]. split; [exact Ha|].
  split; [exact Ht|]. split; [exact Hconf|].
  split; [destruct Hm as [[-> ->]|[-> ->]]; [left|right]; split; reflexivity|].
  repeat split.
Qed.

Lemma uploaded_record_from_accepted_document_witness :
  exists b m d ds rec,
    read_file (sample_env (Some 0) rejected_by_http accepted_recibidas upload_ok)
      "/tmp/factura.pdf" = inr b /\
    [create_structured_document
       (sample_env (Some 0) rejected_by_http accepted_recibidas upload_ok)
       (extract_invoice_fields [sample_doc MODELO_RECIBIDAS (99 # 100)])
       "/tmp/factura.pdf" "egreso" "LEO" sample_hash] = [rec] /\
    analyze (sample_env (Some 0) rejected_by_http accepted_recibidas upload_ok) m b
      = AnalyzeOk (Some (d :: ds)) /\
    doc_type d = m /\ (95 # 100 < confidence d)%Q /\
    ((m = MODELO_EMITIDAS /\ dict_get rec "InvoiceType" = Some (VStr "ingreso")) \/
     (m = MODELO_RECIBIDAS /\ dict_get rec "InvoiceType" = Some (VStr "egreso"))) /\
    dict_get rec "VendorName" = Some (VStr (text_or_na (get_field_value (fields d) "VendorName"))) /\
    dict_get rec "InvoiceDate" = Some (VStr (text_or_na (get_field_value (fields d) "InvoiceDate"))) /\
    dict_get rec "InvoiceTotal" = Some (VFloat (clean_currency (get_field_value (fields d) "InvoiceTotal"))) /\
    dict_get rec "TotalTax" = Some (VFloat (clean_currency (get_field_value (fields d) "TotalTax"))).
Proof.
  apply (uploaded_record_from_accepted_document
           (sample_env (Some 0) rejected_by_http accepted_recibidas upload_ok)
           "/tmp/factura.pdf" "LEO").
  vm_compute. right. right. right. left. reflexivity.
Defined.

(** A run reports [success: True] only after a single upload of the
    record, which the index confirmed: the first indexing result it
    returned has [succeeded]. *)
Theorem success_only_after_confirmed_upload E path partner r tr :
  process_and_upload_invoice E path partner [] = (inr r, tr) ->
  dict_get r "success" = Some (VBool true) ->
  exists pre doc x xs,
    tr = (pre ++ [EvUpload [doc]])%list /\ (forall d, ~ In (EvUpload d) pre) /\
    upload E [doc] = UploadOk (x :: xs) /\ succeeded x = true.
Proof.
  rewrite process_eq. destruct (read_file E path) as [e|b].
  { intros H. injection H as <- _. discriminate. }
  cbv zeta.
  destruct (match search E _ with SearchOk n _ => _ | SearchRaises _ => _ end).
  { intros H. injection H as <- _. discriminate. }
  pose proof (classify_no_upload E b (dup_filter (sha256_hexdigest E b))) as Hno.
  destruct (classify E b _) as [[e|[[a|] [t|]]] tr2]; simpl in Hno;
    try (intros H; injection H as <- _; discriminate).
  destruct (upload E _) as [[|x xs]|e] eqn:Hu;
    intros H; injection H as <- <-; simpl; try discriminate.
  intros Hs. injection Hs as Hs.
  do 4 eexists. split; [reflexivity|]. split; [exact Hno|]. split; [exact Hu|exact Hs].
Qed.

Lemma success_only_after_confirmed_upload_witness :
  exists pre doc x xs,
    snd (process_and_upload_invoice
           (sample_env (Some 0) accepted_emitidas accepted_recibidas upload_ok)
           "/tmp/factura.pdf" "MAXI" []) = (pre ++ [EvUpload [doc]])%list /\
    (forall d, ~ In (EvUpload d) pre) /\
    upload (sample_env (Some 0) accepted_emitidas accepted_recibidas upload_ok) [doc]
      = UploadOk (x :: xs) /\ succeeded x = true.
Proof.
  apply (success_only_after_confirmed_upload
           (sample_env (Some 0) accepted_emitidas accepted_recibidas upload_ok)
           "/tmp/factura.pdf" "MAXI"
           (match fst (process_and_upload_invoice
                         (sample_env (Some 0) accepted_emitidas accepted_recibidas upload_ok)
                         "/tmp/factura.pdf" "MAXI" []) with inr r => r | inl _ => [] end));
    reflexivity.
Defined.

(** [/process-invoice/] once the upload is saved and removed again: the
    response with the processing result is rendered as JSON.  It answers
    status 200 with the result and its [success] flag when the rendering
    succeeds (a duplicate or a rejected invoice included), and status 500
    when the rendering raises, as it does for an [inf] or [nan] amount
    anywhere in the result.  When saving fails it answers 500 before any
    service is called; when removing fails, that exception is raised. *)
Theorem process_invoice_endpoint_outcomes E F p tr :
  (forall path, save_temp F = inr path -> remove_temp F path = None ->
     exists r tr',
       process_and_upload_invoice E path (partner_value p) tr = (inr r, tr') /\
       process_invoice E F p tr =
       (inr match render_error (response_data r (filename F)) with
            | None => InvoiceJSON (dict_get_default r "success" (VBool false))
                                  "Procesamiento de factura completado" (filename F) r
            | Some e => InvoiceHTTPError 500 (server_error e)
            end, tr') /\
       (finite_floats (VDict r) = false ->
        process_invoice E F p tr =
        (inr (InvoiceHTTPError 500
                "Error interno del servidor: Out of range float values are not JSON compliant"),
         tr'))) /\
  (forall e, save_temp F = inl e ->
     process_invoice E F p tr = (inr (InvoiceHTTPError 500 (server_error e)), tr)) /\
  (forall path e, save_temp F = inr path -> remove_temp F path = Some e ->
     fst (process_invoice E F p tr) = inl e).
Proof.
  split; [|split].
  - intros path Hs Hrm.
    destruct (process_invoice_saved E F p tr path Hs) as (r & tr' & H & Hp).
    rewrite Hrm in Hp. exists r, tr'. split; [exact H|]. split; [exact Hp|].
    intros Hf. rewrite Hp, (render_non_finite r (filename F) Hf). reflexivity.
  - intros e Hs. unfold process_invoice. now rewrite Hs.
  - intros path e Hs Hrm.
    destruct (process_invoice_saved E F p tr path Hs) as (r & tr' & _ & ->).
    now rewrite Hrm.
Qed.

(** An accepted invoice whose total reads ["inf"]: the endpoint answers 500. *)
Lemma process_invoice_endpoint_outcomes_witness :
  exists r tr',
    process_and_upload_invoice inf_index "/tmp/tmpab12cd.pdf" (partner_value joni) [] =
    (inr r, tr') /\
    process_invoice inf_index saved_upload joni [] =
    (inr (InvoiceHTTPError 500
            "Error interno del servidor: Out of range float values are not JSON compliant"),
     tr').
Proof.
  destruct (proj1 (process_invoice_endpoint_outcomes inf_index saved_upload joni [])
              "/tmp/tmpab12cd.pdf" eq_refl eq_refl) as (r & tr' & H & _ & Hinf).
  exists r, tr'. split; [exact H|]. apply Hinf.
  assert (Hr : inr r = fst (process_and_upload_invoice inf_index "/tmp/tmpab12cd.pdf"
                                                   (partner_value joni) [])) by now rewrite H.
  vm_compute in Hr. injection Hr as ->. vm_compute. reflexivity.
Defined.

(** Every record uploaded through [/process-invoice/] carries the
    partner chosen in the form, one of HERNAN, JONI, MAXI, LEO. *)
Theorem process_invoice_partner_tag E F p docs :
  In (EvUpload docs) (snd (process_invoice E F p [])) ->
  Forall (fun d => dict_get d "PartnerName" = Some (VStr (partner_value p)) /\
                   In (partner_value p) ["HERNAN"; "JONI"; "MAXI"; "LEO"]) docs.
Proof.
  rewrite process_invoice_trace. destruct (save_temp F) as [e|path]; [intros []|].
  intros Hin.
  destruct (process_upload_shape E path (partner_value p) docs Hin) as (b & r & t & _ & _ & ->).
  constructor; [|constructor]. split; [reflexivity|].
  destruct p; simpl; auto 5.
Qed.

Lemma process_invoice_partner_tag_witness :
  Forall (fun d => dict_get d "PartnerName" = Some (VStr "JONI") /\
                   In "JONI" ["HERNAN"; "JONI"; "MAXI"; "LEO"])
    [create_structured_document ledger_index
       (extract_invoice_fields [sample_doc MODELO_EMITIDAS (97 # 100)])
       "/tmp/tmpab12cd.pdf" "ingreso" "JONI" sample_hash].
Proof.
  apply (process_invoice_partner_tag ledger_index saved_upload joni).
  vm_compute. repeat (first [left; reflexivity | right]).
Defined.

